(** * Document governance pipeline (main.py): a shallow embedding

    The Python program watches a drop zone, extracts the text of each new
    PDF, asks a text-understanding service for [Category | Summary], and
    moves the file to [organized_docs/<category>/<date>_<category>_<summary>.pdf].

    The embedding keeps the shape of the source: every Python function of
    main.py is a computation in a state-and-exception monad over an explicit
    [World] (file system, audit log, console, clock, the remote service).
    Library calls (PyMuPDF, the generative-AI client, pathlib, shutil,
    logging) are modelled at the behaviour main.py relies on.

    Text is ASCII: a Rocq [string] is read as a Python [str] whose characters
    are the bytes of the string. The one literal of main.py outside ASCII is
    the mark at the head of the line [print] writes; it is kept as its bytes,
    and whether the console can encode it is a parameter of the [World]. *)

From stdpp Require Import gmap strings list fin_maps.
From Stdlib Require Import Ascii String.

(* ===================================================================== *)
(** ** Python built-ins used by main.py *)
(* ===================================================================== *)

Module Py.

(** [str.isspace] on the ASCII range: TAB, LF, VT, FF, CR, the four
    separators FS GS RS US, and the space. *)
Definition isspace (c : ascii) : bool :=
  let n := nat_of_ascii c in
  ((9 <=? n) && (n <=? 13)) || ((28 <=? n) && (n <=? 32)).

(** [s.lstrip(chars)] and [s.rstrip(chars)], the character set given as a
    predicate; [s.strip()] removes white space at both ends. *)
Fixpoint lstrip_by (p : ascii -> bool) (s : string) : string :=
  match s with
  | "" => ""
  | String c s' => if p c then lstrip_by p s' else s
  end.

Fixpoint rstrip_by (p : ascii -> bool) (s : string) : string :=
  match s with
  | "" => ""
  | String c s' =>
      match rstrip_by p s' with
      | "" => if p c then "" else String c ""
      | r => String c r
      end
  end.

Definition lstrip : string -> string := lstrip_by isspace.
Definition rstrip : string -> string := rstrip_by isspace.
Definition strip (s : string) : string := rstrip (lstrip s).

(** [s.split(sep)] for a one-character separator: every occurrence of
    [sep] cuts, empty fields are kept, the result is never empty. *)
Fixpoint split (sep : ascii) (s : string) : list string :=
  match s with
  | "" => [""]
  | String c s' =>
      if Ascii.eqb c sep then "" :: split sep s'
      else match split sep s' with
           | h :: t => String c h :: t
           | [] => [String c ""]
           end
  end.

(** [s.replace(old, new)] for one-character [old] and [new]. *)
Fixpoint replace (old new : ascii) (s : string) : string :=
  match s with
  | "" => ""
  | String c s' => String (if Ascii.eqb c old then new else c) (replace old new s')
  end.

(** [s[:n]] *)
Fixpoint take (n : nat) (s : string) : string :=
  match n, s with
  | S n', String c s' => String c (take n' s')
  | _, _ => ""
  end.

(** [s.startswith(c)], [s.endswith(c)] for a one-character argument. *)
Definition startswith (c : ascii) (s : string) : bool :=
  match s with
  | String a _ => Ascii.eqb a c
  | "" => false
  end.

Fixpoint endswith (c : ascii) (s : string) : bool :=
  match s with
  | "" => false
  | String a "" => Ascii.eqb a c
  | String _ s' => endswith c s'
  end.

(** [s.endswith(suffix)] and [s.lower()] *)
Fixpoint endswith_str (suffix s : string) : bool :=
  String.eqb s suffix ||
  match s with
  | "" => false
  | String _ s' => endswith_str suffix s'
  end.

Definition lower_char (c : ascii) : ascii :=
  let n := nat_of_ascii c in
  if (65 <=? n) && (n <=? 90) then ascii_of_nat (n + 32) else c.

Fixpoint lower (s : string) : string :=
  match s with
  | "" => ""
  | String c s' => String (lower_char c) (lower s')
  end.

(** [c in s] *)
Fixpoint contains (c : ascii) (s : string) : bool :=
  match s with
  | "" => false
  | String a s' => Ascii.eqb a c || contains c s'
  end.

End Py.

(* ===================================================================== *)
(** ** Exceptions and the effect monad *)
(* ===================================================================== *)

(** The exception classes that can reach main.py. All of them derive from
    [Exception]; the [OSError] family is told apart because pathlib's
    [mkdir] handles [FileNotFoundError] differently from the rest. *)
Inductive ExcClass :=
| FileNotFoundError
| FileExistsError
| NotADirectoryError
| IsADirectoryError
| ShutilError
| IndexError
| ValueError
| FileDataError
| ServiceError
| PermissionError
| UnicodeEncodeError.

#[global] Instance ExcClass_eq_dec : EqDecision ExcClass.
Proof. solve_decision. Defined.

(** An exception: its class and the text [str(e)] that the log shows. The
    text follows the library's wording; paths appear in it as they were
    passed. *)
Record PyExc := mkExc { exc_class : ExcClass; exc_str : string }.

#[global] Instance PyExc_eq_dec : EqDecision PyExc.
Proof. solve_decision. Defined.

Inductive PyResult (A : Type) :=
| Ok (a : A)
| Raise (e : PyExc).
Arguments Ok {A} a.
Arguments Raise {A} e.

(** Content of a regular file, as PyMuPDF sees it: a document with its
    pages' text in document order, or bytes it cannot open (a zero-byte
    file is [NotPdf ""]). *)
Inductive FileData :=
| PdfDoc (pages : list string)
| NotPdf (bytes : string).

#[global] Instance FileData_eq_dec : EqDecision FileData.
Proof. solve_decision. Defined.

(** A resolved path: its components below the working directory. *)
Abbreviation path := (list string).

(** Regular files, directories, and the directories in which no entry may
    be made, removed or renamed (no write permission); the content of a
    file that exists can still be rewritten. *)
Record FS := mkFS {
  files : gmap path FileData;
  dirs : gset path;
  readonly : gset path
}.

Inductive Level := INFO | ERROR.

#[global] Instance Level_eq_dec : EqDecision Level.
Proof. solve_decision. Defined.

Record Date := mkDate { year : nat; month : nat; day : nat }.

(** What [model.generate_content] hands back: an object whose [.text]
    property yields the text or raises (a blocked or empty candidate). *)
Record GenResponse := mkResponse { response_text : PyResult string }.

Record World := mkWorld {
  fs : FS;
  audit_log : list (Level * string);  (* LOG_FILE, oldest record first *)
  console : list string;              (* lines printed, oldest first *)
  today : Date;                       (* the local date the clock shows *)
  model : string -> PyResult GenResponse;  (* the remote service *)
  requests : list string;             (* prompts sent to the service so far *)
  stdout_encodes : string -> bool     (* lines the encoding of stdout can hold *)
}.

(** Computations that read and write a state [S] and may raise. The file
    system calls run over [FS]; the functions of main.py run over [World]. *)
Definition St (S A : Type) : Type := S -> PyResult A * S.

#[global] Instance St_ret S : MRet (St S) := fun A a s => (Ok a, s).

#[global] Instance St_bind S : MBind (St S) := fun A B f m s =>
  match m s with
  | (Ok a, s') => f a s'
  | (Raise e, s') => (Raise e, s')
  end.

Definition raise {S A} (e : PyExc) : St S A := fun s => (Raise e, s).

(** [try: body  except Exception as e: handler(e)] *)
Definition try_except {S A} (body : St S A) (handler : PyExc -> St S A) : St S A :=
  fun s =>
    match body s with
    | (Ok a, s') => (Ok a, s')
    | (Raise e, s') => handler e s'
    end.

Definition get {S} : St S S := fun s => (Ok s, s).
Definition put {S} (s : S) : St S unit := fun _ => (Ok tt, s).

Abbreviation M := (St World).

Definition set_fs (f : FS) (w : World) : World :=
  mkWorld f (audit_log w) (console w) (today w) (model w) (requests w)
          (stdout_encodes w).

Definition add_log (r : Level * string) (w : World) : World :=
  mkWorld (fs w) (audit_log w ++ [r]) (console w) (today w) (model w) (requests w)
          (stdout_encodes w).

Definition add_line (line : string) (w : World) : World :=
  mkWorld (fs w) (audit_log w) (console w ++ [line]) (today w) (model w) (requests w)
          (stdout_encodes w).

Definition add_request (prompt : string) (w : World) : World :=
  mkWorld (fs w) (audit_log w) (console w) (today w) (model w) (requests w ++ [prompt])
          (stdout_encodes w).

(** A file system call made from main.py. *)
Definition on_fs {A} (m : St FS A) : M A := fun w =>
  let '(r, f) := m (fs w) in (r, set_fs f w).

Definition lift_result {S A} (r : PyResult A) : St S A := fun s => (r, s).

(** [result[i]] *)
Definition getitem {S} (l : list string) (i : nat) : St S string :=
  match l !! i with
  | Some x => mret x
  | None => raise (mkExc IndexError "list index out of range")
  end.

(* ===================================================================== *)
(** ** The libraries: os.path, pathlib, shutil, PyMuPDF, time *)
(* ===================================================================== *)

(** [os.path.join(a, b)] (posixpath) *)
Definition os_path_join (a b : string) : string :=
  if Py.startswith "/" b then b
  else if bool_decide (a = "") || Py.endswith "/" a then a +:+ b
  else a +:+ "/" +:+ b.

(** [os.path.basename(p)]: what follows the last slash. *)
Definition os_path_basename (p : string) : string :=
  List.last (Py.split "/" p) "".

(** Path resolution. The working directory is the root of the modelled
    tree; empty components and [.] are dropped, [..] steps up (symbolic
    links are not modelled). *)
Definition resolve_step (acc : path) (c : string) : path :=
  if bool_decide (c = "" ∨ c = ".") then acc
  else if bool_decide (c = "..") then removelast acc
  else acc ++ [c].

Definition resolve (p : string) : path :=
  foldl resolve_step [] (Py.split "/" p).

Definition parent (k : path) : path := removelast k.

(** The proper prefixes of a resolved path, shortest first. *)
Definition ancestors (k : path) : list path :=
  (fun n => take n k) <$> seq 0 (List.length k).

Definition is_dir (f : FS) (k : path) : bool :=
  bool_decide (k = [] ∨ k ∈ dirs f).

Definition is_file (f : FS) (k : path) : bool :=
  bool_decide (is_Some (files f !! k)).

Definition path_exists (f : FS) (k : path) : bool := is_dir f k || is_file f k.

(** Why a new entry cannot be made at [k], if it cannot: a regular file
    on the way (ENOTDIR) or a missing parent directory (ENOENT). *)
Definition entry_error (f : FS) (k : path) (shown : string) : option PyExc :=
  if existsb (is_file f) (ancestors k) then
    Some (mkExc NotADirectoryError ("[Errno 20] Not a directory: '" +:+ shown +:+ "'"))
  else if negb (is_dir f (parent k)) then
    Some (mkExc FileNotFoundError ("[Errno 2] No such file or directory: '" +:+ shown +:+ "'"))
  else None.

Definition writable (f : FS) (k : path) : bool := bool_decide (k ∉ readonly f).

Definition permission_denied (shown : string) : PyExc :=
  mkExc PermissionError ("[Errno 13] Permission denied: '" +:+ shown +:+ "'").

(** [os.mkdir(p)]: an existing entry is reported first (EEXIST), then a
    broken path (ENOTDIR, ENOENT), then a parent without write permission
    (EACCES). *)
Definition os_mkdir (p : string) : St FS unit :=
  f ← get;
  let k := resolve p in
  if path_exists f k then
    raise (mkExc FileExistsError ("[Errno 17] File exists: '" +:+ p +:+ "'"))
  else
    match entry_error f k p with
    | Some e => raise e
    | None =>
        if writable f (parent k) then put (mkFS (files f) ({[k]} ∪ dirs f) (readonly f))
        else raise (permission_denied p)
    end.

(** [Path(p).mkdir(exist_ok=exist_ok)], with [parents] left at its default
    [False]: pathlib calls [os.mkdir]; a [FileNotFoundError] is raised
    again, any other [OSError] is swallowed only when [exist_ok] holds and
    the path is a directory. *)
Definition Path_mkdir (p : string) (exist_ok : bool) : St FS unit :=
  try_except (os_mkdir p)
    (fun e =>
       if bool_decide (exc_class e = FileNotFoundError) then raise e
       else
         f ← get;
         if negb exist_ok || negb (is_dir f (resolve p)) then raise e
         else mret tt).

(** [Path(p).mkdir(parents=True, exist_ok=True)]: every missing directory
    along [p] is made, outermost first. *)
Fixpoint mkdir_chain (made : string) (rest : list string) : St FS unit :=
  match rest with
  | [] => mret tt
  | c :: rest' =>
      let next := os_path_join made c in
      Path_mkdir next true;; mkdir_chain next rest'
  end.

Definition Path_mkdir_parents (p : string) : St FS unit :=
  mkdir_chain "" (resolve p).

(** [os.rename(src, dst)] for a source that is a regular file or absent
    (main.py only moves a file it has just read). An existing regular file
    at [dst] is replaced; renaming a file onto itself does nothing; both
    parent directories must be writable. *)
Definition os_rename (src dst : string) : St FS unit :=
  f ← get;
  let ks := resolve src in
  let kd := resolve dst in
  match files f !! ks with
  | None =>
      raise (mkExc FileNotFoundError
               ("[Errno 2] No such file or directory: '" +:+ src +:+ "' -> '" +:+ dst +:+ "'"))
  | Some data =>
      match entry_error f kd dst with
      | Some e => raise e
      | None =>
          if is_dir f kd then
            raise (mkExc IsADirectoryError ("[Errno 21] Is a directory: '" +:+ dst +:+ "'"))
          else if bool_decide (ks <> kd)
                  && negb (writable f (parent ks) && writable f (parent kd)) then
            raise (permission_denied (src +:+ "' -> '" +:+ dst))
          else put (mkFS (<[kd := data]> (delete ks (files f))) (dirs f) (readonly f))
      end
  end.

(** [shutil.copy2(src, dst)]: into [dst] when it is a directory. The
    source must be a regular file other than the target; an existing
    target is rewritten in place, a new one needs a writable parent. *)
Definition shutil_copy2 (src dst : string) : St FS string :=
  f ← get;
  let dst := if is_dir f (resolve dst)
             then os_path_join dst (os_path_basename src) else dst in
  let ks := resolve src in
  let kd := resolve dst in
  match files f !! ks with
  | None =>
      raise (mkExc FileNotFoundError
               ("[Errno 2] No such file or directory: '" +:+ src +:+ "'"))
  | Some data =>
      if bool_decide (ks = kd) then
        raise (mkExc ShutilError ("'" +:+ src +:+ "' and '" +:+ dst +:+ "' are the same file"))
      else if is_dir f kd then
        raise (mkExc IsADirectoryError ("[Errno 21] Is a directory: '" +:+ dst +:+ "'"))
      else if is_file f kd then
        put (mkFS (<[kd := data]> (files f)) (dirs f) (readonly f));; mret dst
      else
        match entry_error f kd dst with
        | Some e => raise e
        | None =>
            if writable f (parent kd) then
              put (mkFS (<[kd := data]> (files f)) (dirs f) (readonly f));; mret dst
            else raise (permission_denied dst)
        end
  end.

(** [os.unlink(p)] *)
Definition os_unlink (p : string) : St FS unit :=
  f ← get;
  let k := resolve p in
  match files f !! k with
  | None =>
      raise (mkExc FileNotFoundError ("[Errno 2] No such file or directory: '" +:+ p +:+ "'"))
  | Some _ =>
      if writable f (parent k) then put (mkFS (delete k (files f)) (dirs f) (readonly f))
      else raise (permission_denied p)
  end.

(** The path [shutil.move(src, dst)] writes to: inside [dst] under the
    source's base name when [dst] is a directory, [dst] itself otherwise. *)
Definition real_destination (f : FS) (src dst : string) : string :=
  if is_dir f (resolve dst)
  then os_path_join dst (os_path_basename (Py.rstrip_by (Ascii.eqb "/") src))
  else dst.

(** [shutil.move(src, dst)]: into [dst] when it is a directory (refusing
    to replace an entry there), onto [dst] otherwise. The file is renamed;
    when [os.rename] raises, it is copied and then the source is unlinked,
    so a move can raise after the destination has been written. *)
Definition shutil_move (src dst : string) : St FS string :=
  f ← get;
  let real_dst := real_destination f src dst in
  (if is_dir f (resolve dst) && path_exists f (resolve real_dst)
   then raise (mkExc ShutilError ("Destination path '" +:+ real_dst +:+ "' already exists"))
   else mret tt);;
  try_except (os_rename src real_dst)
    (fun _ => shutil_copy2 src real_dst;; os_unlink src);;
  mret real_dst.

(** [fitz.open(file_path)] followed by the iteration over the pages. *)
Definition fitz_open (file_path : string) : St FS (list string) :=
  f ← get;
  match files f !! resolve file_path with
  | Some (PdfDoc pages) => mret pages
  | Some (NotPdf _) =>
      raise (mkExc FileDataError ("Failed to open file '" +:+ file_path +:+ "'."))
  | None =>
      raise (mkExc FileNotFoundError ("no such file: '" +:+ file_path +:+ "'"))
  end.

(** [time.strftime("%Y%m%d")] for a year of four digits. *)
Definition digit (n : nat) : ascii := ascii_of_nat (48 + n mod 10).

Definition two_digits (n : nat) : string :=
  String (digit (n / 10)) (String (digit n) "").

Definition four_digits (n : nat) : string :=
  String (digit (n / 1000)) (String (digit (n / 100)) (two_digits n)).

Definition strftime_Ymd (d : Date) : string :=
  four_digits (year d) +:+ two_digits (month d) +:+ two_digits (day d).

Definition time_strftime_Ymd : M string := fun w => (Ok (strftime_Ymd (today w)), w).

(* ===================================================================== *)
(** ** 1. Configuration and logging *)
(* ===================================================================== *)

Definition WATCH_DIR : string := "./dropzone".
Definition PROCESSED_DIR : string := "./organized_docs".

Definition logging_log (lvl : Level) (msg : string) : M unit := fun w =>
  (Ok tt, add_log (lvl, msg) w).

Definition logging_info : string -> M unit := logging_log INFO.
Definition logging_error : string -> M unit := logging_log ERROR.

(** [print(line)]: the line is written, unless the encoding of stdout
    cannot hold it. Every line this program prints starts with the same
    three characters outside ASCII; the message is the one the ASCII codec
    gives for them. *)
Definition print (line : string) : M unit := fun w =>
  if stdout_encodes w line then (Ok tt, add_line line w)
  else (Raise (mkExc UnicodeEncodeError
                 ("'ascii' codec can't encode characters in position 0-2: "
                  +:+ "ordinal not in range(128)")), w).

(** [model.generate_content(prompt)]: the request is recorded, then the
    service answers or raises. *)
Definition generate_content (prompt : string) : M GenResponse := fun w =>
  (model w prompt, add_request prompt w).

(** Lines 31-32: both directories are made when the module is loaded. *)
Definition ensure_directories : M unit :=
  on_fs (Path_mkdir_parents WATCH_DIR);; on_fs (Path_mkdir_parents PROCESSED_DIR).

(* ===================================================================== *)
(** ** 2. Extraction and classification *)
(* ===================================================================== *)

(** The loop [for page in doc: text += page.get_text()], from [text = ""]. *)
Definition page_text (doc : list string) : string :=
  foldl (fun text page => text +:+ page) "" doc.

Definition extract_text_from_pdf (file_path : string) : M (option string) :=
  try_except
    (doc ← on_fs (fitz_open file_path);
     mret (Some (page_text doc)))
    (fun e =>
       logging_error ("Failed to read PDF " +:+ file_path +:+ ": " +:+ exc_str e);;
       mret None).

Definition prompt_template : string := "
    Analyze the following document text. 
    1. Classify it into ONE of these categories: Invoice, Contract, HR_Policy, Technical_Spec, or Other.
    2. Extract a brief, 3-word summary of the subject.
    
    Format your response EXACTLY like this:
    Category | Summary
    
    Text snippet:
    ".

Definition analyze_document_with_ai (text : string) : M (string * string) :=
  let prompt := prompt_template +:+ Py.take 2000 text in
  try_except
    (response ← generate_content prompt;
     response_text ← lift_result (response_text response);
     let result := Py.split "|"%char (Py.strip response_text) in
     r0 ← getitem result 0;
     let category := Py.strip r0 in
     r1 ← getitem result 1;
     let summary := Py.replace " "%char "_"%char (Py.strip r1) in
     mret (category, summary))
    (fun e =>
       logging_error ("AI API Error: " +:+ exc_str e);;
       mret ("Unclassified", "Unknown_Subject")).

(* ===================================================================== *)
(** ** 3. The routing workflow *)
(* ===================================================================== *)

(** [process_new_file] returns [None] from three places; the embedding
    names the place: the early return after extraction, the end of the
    [try] block, the end of the [except] block. *)
Inductive Outcome :=
| Skipped
| Routed (new_file_path : string)
| Failed (e : PyExc).

#[global] Instance Outcome_eq_dec : EqDecision Outcome.
Proof. solve_decision. Defined.

Definition new_filename_of (timestamp category context_summary : string) : string :=
  timestamp +:+ "_" +:+ category +:+ "_" +:+ context_summary +:+ ".pdf".

Definition process_new_file (file_path : string) : M Outcome :=
  let filename := os_path_basename file_path in
  logging_info ("New file detected: " +:+ filename +:+ ". Starting processing...");;
  text ← extract_text_from_pdf file_path;
  match text with
  | None | Some "" => mret Skipped
  | Some text =>
      '(category, context_summary) ← analyze_document_with_ai text;
      let target_folder := os_path_join PROCESSED_DIR category in
      on_fs (Path_mkdir target_folder true);;
      timestamp ← time_strftime_Ymd;
      let new_filename := new_filename_of timestamp category context_summary in
      let new_file_path := os_path_join target_folder new_filename in
      try_except
        (on_fs (shutil_move file_path new_file_path);;
         logging_info ("SUCCESS: Routed '" +:+ filename +:+ "' to '" +:+ new_file_path +:+ "'");;
         print ("‚úÖ Processed: " +:+ new_filename);;
         mret (Routed new_file_path))
        (fun e =>
           logging_error ("Failed to route file " +:+ filename +:+ ": " +:+ exc_str e);;
           mret (Failed e))
  end.

(* ===================================================================== *)
(** ** 4. The watchdog handler *)
(* ===================================================================== *)

Record FileSystemEvent := mkEvent { is_directory : bool; src_path : string }.

(** [DocumentDropHandler.on_created]; the one-second sleep does not show
    in a world whose clock is a date. *)
Definition on_created (event : FileSystemEvent) : M unit :=
  if is_directory event || negb (Py.endswith_str ".pdf" (Py.lower (src_path event)))
  then mret tt
  else process_new_file (src_path event);; mret tt.

(* ===================================================================== *)
(** ** The written contract, for comparison with the code *)
(* ===================================================================== *)

Module Contract.

(** The pair the classifier falls back to. *)
Definition fallback : string * string := ("Unclassified", "Unknown_Subject").

(** "Split the response on the first [|]": the text before it and the
    whole remainder after it, or nothing when there is no [|]. *)
Fixpoint split_first (sep : ascii) (s : string) : option (string * string) :=
  match s with
  | "" => None
  | String c s' =>
      if Ascii.eqb c sep then Some ("", s')
      else match split_first sep s' with
           | Some (a, b) => Some (String c a, b)
           | None => None
           end
  end.

(** "Fewer than two parts result, or either part is empty after trimming." *)
Definition malformed (response : string) : bool :=
  match split_first "|" response with
  | None => true
  | Some (a, b) =>
      bool_decide (Py.strip a = "") || bool_decide (Py.strip b = "")
  end.

(** "Replace internal whitespace runs with a single underscore." *)
Fixpoint collapse_runs (in_run : bool) (s : string) : string :=
  match s with
  | "" => ""
  | String c s' =>
      if Py.isspace c then
        if in_run then collapse_runs true s'
        else String "_" (collapse_runs true s')
      else String c (collapse_runs false s')
  end.

(** "Trim, then replace internal whitespace runs with a single
    underscore", applied to the entire remainder after the first [|]. *)
Definition summary (response : string) : option string :=
  match split_first "|" response with
  | Some (_, rest) => Some (collapse_runs false (Py.strip rest))
  | None => None
  end.




(** "{YYYYMMDD}": eight decimal digits, read as year, month and day. *)
Definition digit_value (c : ascii) : option nat :=
  let n := nat_of_ascii c in
  if (48 <=? n) && (n <=? 57) then Some (n - 48) else None.

Definition read_date (s : string) : option Date :=
  match s with
  | String a (String b (String c (String d
      (String e (String f (String g (String h ""))))))) =>
      y3 ← digit_value a; y2 ← digit_value b; y1 ← digit_value c; y0 ← digit_value d;
      m1 ← digit_value e; m0 ← digit_value f;
      d1 ← digit_value g; d0 ← digit_value h;
      Some (mkDate (1000 * y3 + 100 * y2 + 10 * y1 + y0) (10 * m1 + m0) (10 * d1 + d0))
  | _ => None
  end.

(** "Two distinct files on disk, neither overwriting the other": both
    contents are found, under different paths. *)
Definition both_kept (f : FS) (d1 d2 : FileData) : Prop :=
  ∃ k1 k2, k1 ≠ k2 ∧ files f !! k1 = Some d1 ∧ files f !! k2 = Some d2.

End Contract.

(* ===================================================================== *)
(** ** Concrete worlds *)
(* ===================================================================== *)

Module Scenario.

(** A service that answers every prompt with the same line. *)
Definition answers (line : string) : string -> PyResult GenResponse :=
  fun _ => Ok (mkResponse (Ok line)).

(** A service whose call times out in the client library. *)
Definition times_out : string -> PyResult GenResponse :=
  fun _ => Raise (mkExc ServiceError "504 Deadline Exceeded").

Definition jan15 : Date := mkDate 2024 1 15.

(** The process just started on an empty tree: both directories exist. *)
Definition started (service : string -> PyResult GenResponse) : World :=
  snd (ensure_directories
         (mkWorld (mkFS ∅ ∅ ∅) [] [] jan15 service [] (fun _ => true))).

(** A file appears in the drop zone. *)
Definition drop (name : string) (data : FileData) (w : World) : World :=
  set_fs (mkFS (<[resolve (os_path_join WATCH_DIR name) := data]> (files (fs w)))
               (dirs (fs w)) (readonly (fs w))) w.

Definition invoice_q1 : FileData := PdfDoc ["Invoice #123 from Acme"].

(** Scenario A of the written contract. *)
Definition scenario_a : World :=
  drop "invoice_q1.pdf" invoice_q1 (started (answers "Invoice | Acme Q1 Invoice")).

(** Scenario B: a zero-byte file. *)
Definition scenario_b : World :=
  drop "bad.pdf" (NotPdf "") (started (answers "Invoice | Acme Q1 Invoice")).

(** Scenario D: two different documents, the same answer, the same day. *)
Definition deal_1 : FileData := PdfDoc ["Contract between Acme and Bolt"].
Definition deal_2 : FileData := PdfDoc ["Contract between Acme and Nut"; "Annex"].

Definition scenario_d : World :=
  drop "second.pdf" deal_2
    (drop "first.pdf" deal_1 (started (answers "Contract | Acme Deal"))).

Definition after_first : World :=
  snd (process_new_file "./dropzone/first.pdf" scenario_d).

Definition after_second : World :=
  snd (process_new_file "./dropzone/second.pdf" after_first).


(** The service names a category with a slash in it. *)
Definition nested_category : World :=
  drop "nda.pdf" (PdfDoc ["Mutual non-disclosure agreement"])
    (started (answers "Legal/Contracts | Acme NDA")).

(** The service puts a slash in the summary. *)
Definition slash_summary : World :=
  drop "report.pdf" (PdfDoc ["Quarterly report"])
    (started (answers "Invoice | Q1/Q2 report")).

(** Scenario C: the call to the service times out. *)
Definition scenario_c : World :=
  drop "memo.pdf" (PdfDoc ["Memo to all staff"]) (started times_out).

(** A second summary with a slash, in another category. *)
Definition slash_deal : World :=
  drop "deal.pdf" deal_1 (started (answers "Contract | Acme/Bolt deal")).

(** A readable document of two empty pages. *)
Definition blank : World :=
  drop "blank.pdf" (PdfDoc [""; ""]) (started (answers "Other | Blank Pages")).

(** The invoice under an upper-case extension. *)
Definition upper_case : World :=
  drop "SCAN.PDF" invoice_q1 (started (answers "Invoice | Acme Q1 Invoice")).

(** Scenario A with a directory standing at the destination path. *)
Definition directory_at_destination : World :=
  set_fs
    (mkFS (files (fs scenario_a))
          ({[ ["organized_docs"; "Invoice"];
              ["organized_docs"; "Invoice"; "20240115_Invoice_Acme_Q1_Invoice.pdf"] ]}
           ∪ dirs (fs scenario_a))
          (readonly (fs scenario_a)))
    scenario_a.

(** The tree before start-up: empty, or with a regular file named
    [dropzone]. *)
Definition before_start : World :=
  mkWorld (mkFS ∅ ∅ ∅) [] [] jan15 (answers "Other | Nothing") [] (fun _ => true).

Definition occupied : World :=
  mkWorld (mkFS {[ ["dropzone"] := NotPdf "notes" ]} ∅ ∅) [] [] jan15
          (answers "Other | Nothing") [] (fun _ => true).

(** Scenario D after the first file, the drop zone having lost its write
    permission: nothing can be renamed out of it or removed from it. *)
Definition locked_dropzone : World :=
  set_fs (mkFS (files (fs after_first)) (dirs (fs after_first)) {[ ["dropzone"] ]})
         after_first.

(** Scenario A on another day. *)
Definition new_years_eve : World :=
  mkWorld (fs scenario_a) [] [] (mkDate 2025 12 31) (model scenario_a) []
          (fun _ => true).

(** Scenario C on a console whose encoding holds ASCII only. *)
Definition ascii_console : World :=
  mkWorld (fs scenario_c) [] [] jan15 (model scenario_c) []
          (fun line => forallb (fun c => nat_of_ascii c <? 128) (list_ascii_of_string line)).

(** A text of exactly 2000 characters. *)
Definition two_thousand : string :=
  fold_right String.append "" (repeat "0123456789" 200).

End Scenario.

(* ===================================================================== *)
(** ** Properties of the file system calls *)
(* ===================================================================== *)

Ltac unfold_st :=
  unfold mbind, mret, St_bind, St_ret, raise, try_except, get, put,
         lift_result, on_fs in *.

Lemma fitz_open_frame p f r f' : fitz_open p f = (r, f') -> f' = f.
Proof.
  unfold fitz_open; unfold_st.
  destruct (files f !! resolve p) as [[pages|bytes]|]; intros [= <- <-]; reflexivity.
Qed.

Lemma fitz_open_ok p f doc f' :
  fitz_open p f = (Ok doc, f') -> files f !! resolve p = Some (PdfDoc doc).
Proof.
  unfold fitz_open; unfold_st.
  destruct (files f !! resolve p) as [[pages|bytes]|]; intros [= <- <-] || intros [=].
  reflexivity.
Qed.

Lemma os_mkdir_ok p f f' :
  os_mkdir p f = (Ok tt, f') ->
  f' = mkFS (files f) ({[resolve p]} ∪ dirs f) (readonly f).
Proof.
  unfold os_mkdir; unfold_st.
  destruct (path_exists f (resolve p)); [discriminate|].
  destruct (entry_error f (resolve p) p); [discriminate|].
  destruct (writable f (parent (resolve p))); [|discriminate].
  intros [= <-]; reflexivity.
Qed.

Lemma os_mkdir_raise p f e f' : os_mkdir p f = (Raise e, f') -> f' = f.
Proof.
  unfold os_mkdir; unfold_st.
  destruct (path_exists f (resolve p)); [intros [= _ <-]; reflexivity|].
  destruct (entry_error f (resolve p) p); [intros [= _ <-]; reflexivity|].
  destruct (writable f (parent (resolve p))); [discriminate|intros [= _ <-]; reflexivity].
Qed.

Lemma is_dir_add f k : is_dir (mkFS (files f) ({[k]} ∪ dirs f) (readonly f)) k = true.
Proof. unfold is_dir; simpl. apply bool_decide_eq_true. right. set_solver. Qed.

(** A successful [mkdir(exist_ok=True)] leaves the regular files alone,
    ends with the directory in place, and adds no other directory. *)
Lemma Path_mkdir_ok p f f' :
  Path_mkdir p true f = (Ok tt, f') ->
  files f' = files f /\
  is_dir f' (resolve p) = true /\
  (f' = f \/ dirs f' = {[resolve p]} ∪ dirs f).
Proof.
  unfold Path_mkdir; unfold_st.
  destruct (os_mkdir p f) as [[[]|e] f1] eqn:Hmk.
  - intros [= <-]. apply os_mkdir_ok in Hmk as ->. simpl.
    split; [reflexivity|]. split; [apply is_dir_add|]. right; reflexivity.
  - apply os_mkdir_raise in Hmk as ->.
    destruct (bool_decide (exc_class e = FileNotFoundError)); [discriminate|].
    simpl. destruct (is_dir f (resolve p)) eqn:Hd; simpl; [|discriminate].
    intros [= <-]. split; [reflexivity|]. split; [exact Hd|]. left; reflexivity.
Qed.

Lemma Path_mkdir_raise p b f e f' : Path_mkdir p b f = (Raise e, f') -> f' = f.
Proof.
  unfold Path_mkdir; unfold_st.
  destruct (os_mkdir p f) as [[[]|e0] f1] eqn:Hmk; [discriminate|].
  apply os_mkdir_raise in Hmk as ->.
  destruct (bool_decide (exc_class e0 = FileNotFoundError)); [intros [= _ <-]; reflexivity|].
  destruct (negb b || negb (is_dir f (resolve p))); intros [= _ <-] || intros [=]; reflexivity.
Qed.

(** [mkdir(exist_ok=True)] on a directory that exists returns and changes
    nothing. *)
Lemma Path_mkdir_existing p f :
  is_dir f (resolve p) = true -> Path_mkdir p true f = (Ok tt, f).
Proof.
  intros Hd. unfold Path_mkdir, os_mkdir, path_exists; unfold_st.
  rewrite Hd. cbn [orb exc_class].
  rewrite bool_decide_eq_false_2 by discriminate. rewrite Hd. reflexivity.
Qed.

Lemma os_rename_raise s d f e f' : os_rename s d f = (Raise e, f') -> f' = f.
Proof.
  unfold os_rename; unfold_st.
  destruct (files f !! resolve s); [|intros [= _ <-]; reflexivity].
  destruct (entry_error f (resolve d) d); [intros [= _ <-]; reflexivity|].
  destruct (is_dir f (resolve d)); [intros [= _ <-]; reflexivity|].
  destruct (bool_decide (resolve s <> resolve d) && _);
    [intros [= _ <-]; reflexivity|discriminate].
Qed.

Lemma os_rename_ok s d f f' :
  os_rename s d f = (Ok tt, f') ->
  exists data,
    files f !! resolve s = Some data /\
    is_dir f (resolve d) = false /\
    f' = mkFS (<[resolve d := data]> (delete (resolve s) (files f))) (dirs f) (readonly f).
Proof.
  unfold os_rename; unfold_st.
  destruct (files f !! resolve s) as [data|]; [|discriminate].
  destruct (entry_error f (resolve d) d); [discriminate|].
  destruct (is_dir f (resolve d)) eqn:Hd; [discriminate|].
  destruct (bool_decide (resolve s <> resolve d) && _); [discriminate|].
  intros [= <-]. exists data. auto.
Qed.

Lemma shutil_copy2_raise s d f e f' : shutil_copy2 s d f = (Raise e, f') -> f' = f.
Proof.
  unfold shutil_copy2; unfold_st.
  destruct (files f !! resolve s); [|intros [= _ <-]; reflexivity].
  destruct (bool_decide (resolve s = _)); [intros [= _ <-]; reflexivity|].
  destruct (is_dir f (resolve (if is_dir f (resolve d) then _ else _)));
    [intros [= _ <-]; reflexivity|].
  destruct (is_file f _); [discriminate|].
  destruct (entry_error f _ _); [intros [= _ <-]; reflexivity|].
  destruct (writable f _); [discriminate|intros [= _ <-]; reflexivity].
Qed.

(** A copy onto a path that is not a directory writes that path only. *)
Lemma shutil_copy2_ok s d f r f' :
  is_dir f (resolve d) = false ->
  shutil_copy2 s d f = (Ok r, f') ->
  exists data,
    files f !! resolve s = Some data /\
    resolve s <> resolve d /\
    f' = mkFS (<[resolve d := data]> (files f)) (dirs f) (readonly f).
Proof.
  intros Hd. unfold shutil_copy2; unfold_st. rewrite Hd.
  destruct (files f !! resolve s) as [data|]; [|discriminate].
  destruct (bool_decide (resolve s = resolve d)) eqn:Hsame; [discriminate|].
  apply bool_decide_eq_false in Hsame. rewrite Hd.
  destruct (is_file f (resolve d)).
  - intros [= _ <-]. exists data. auto.
  - destruct (entry_error f (resolve d) d); [discriminate|].
    destruct (writable f (parent (resolve d))); [|discriminate].
    intros [= _ <-]. exists data. auto.
Qed.

Lemma os_unlink_raise p f e f' : os_unlink p f = (Raise e, f') -> f' = f.
Proof.
  unfold os_unlink; unfold_st.
  destruct (files f !! resolve p); [|intros [= _ <-]; reflexivity].
  destruct (writable f (parent (resolve p))); [discriminate|intros [= _ <-]; reflexivity].
Qed.

Lemma os_unlink_ok p f f' :
  os_unlink p f = (Ok tt, f') ->
  f' = mkFS (delete (resolve p) (files f)) (dirs f) (readonly f).
Proof.
  unfold os_unlink; unfold_st.
  destruct (files f !! resolve p); [|discriminate].
  destruct (writable f (parent (resolve p))); [|discriminate].
  intros [= <-]. reflexivity.
Qed.

(** Past the check for an occupied place in a directory, the path
    [shutil.move] writes to is not a directory. *)
Lemma real_destination_not_dir s d f :
  is_dir f (resolve d) && path_exists f (resolve (real_destination f s d)) = false ->
  is_dir f (resolve (real_destination f s d)) = false.
Proof.
  unfold real_destination, path_exists.
  destruct (is_dir f (resolve d)) eqn:Hd; [|intros _; exact Hd].
  cbn [andb]. intros H. apply orb_false_iff in H as [H _]. exact H.
Qed.

(** The two ways a move can go once the place is free: the rename, or the
    copy followed by the unlink. *)
Lemma move_file_ok s r f f' :
  is_dir f (resolve r) = false ->
  try_except (os_rename s r) (fun _ => shutil_copy2 s r;; os_unlink s) f = (Ok tt, f') ->
  exists data,
    files f !! resolve s = Some data /\
    f' = mkFS (<[resolve r := data]> (delete (resolve s) (files f))) (dirs f) (readonly f).
Proof.
  intros Hnd. unfold_st.
  destruct (os_rename s r f) as [[[]|e0] f0] eqn:Hren.
  - intros [= <-]. apply os_rename_ok in Hren as (data & Hs & _ & ->). eauto.
  - apply os_rename_raise in Hren as ->.
    destruct (shutil_copy2 s r f) as [[c|e1] f1] eqn:Hcp; [|discriminate].
    apply (shutil_copy2_ok _ _ _ _ _ Hnd) in Hcp as (data & Hs & Hne & ->).
    intros Hun. apply os_unlink_ok in Hun as ->. cbn [files dirs readonly].
    exists data. split; [exact Hs|].
    rewrite delete_insert_ne by exact Hne. reflexivity.
Qed.

Lemma move_file_raise s r f e f' :
  is_dir f (resolve r) = false ->
  try_except (os_rename s r) (fun _ => shutil_copy2 s r;; os_unlink s) f = (Raise e, f') ->
  dirs f' = dirs f /\
  files f' !! resolve s = files f !! resolve s /\
  (forall k, k <> resolve r -> files f' !! k = files f !! k).
Proof.
  intros Hnd. unfold_st.
  destruct (os_rename s r f) as [[[]|e0] f0] eqn:Hren; [discriminate|].
  apply os_rename_raise in Hren as ->.
  destruct (shutil_copy2 s r f) as [[c|e1] f1] eqn:Hcp.
  - apply (shutil_copy2_ok _ _ _ _ _ Hnd) in Hcp as (data & Hs & Hne & ->).
    intros Hun. apply os_unlink_raise in Hun as ->. cbn [files dirs].
    split; [reflexivity|]. split.
    + apply lookup_insert_ne. intros Heq. apply Hne. symmetry. exact Heq.
    + intros k Hk. apply lookup_insert_ne. intros Heq. apply Hk. symmetry. exact Heq.
  - apply shutil_copy2_raise in Hcp as ->. intros [= _ <-]. auto.
Qed.

(** A move that returns has put the source's content at the path it
    returns and removed the source; that path is the requested one unless a
    directory stands there. *)
Lemma shutil_move_ok s d f r f' :
  shutil_move s d f = (Ok r, f') ->
  exists data,
    files f !! resolve s = Some data /\
    f' = mkFS (<[resolve r := data]> (delete (resolve s) (files f))) (dirs f) (readonly f) /\
    (is_dir f (resolve d) = false -> r = d).
Proof.
  unfold shutil_move. unfold mbind at 1 2 3, St_bind, get, mret, St_ret, raise.
  destruct (is_dir f (resolve d) && path_exists f (resolve (real_destination f s d)))
    eqn:Hocc; [discriminate|].
  apply real_destination_not_dir in Hocc.
  destruct (try_except _ _ f) as [[[]|e] f1] eqn:Hmv; [|discriminate].
  intros [= <- <-].
  apply (move_file_ok _ _ _ _ Hocc) in Hmv as (data & Hs & ->).
  exists data. split; [exact Hs|]. split; [reflexivity|].
  intros Hd. unfold real_destination. rewrite Hd. reflexivity.
Qed.

Lemma shutil_move_dest s d f r f' :
  shutil_move s d f = (Ok r, f') -> r = real_destination f s d.
Proof.
  unfold shutil_move. unfold mbind at 1 2 3, St_bind, get, mret, St_ret, raise.
  destruct (is_dir f (resolve d) && _); [discriminate|].
  destruct (try_except _ _ f) as [[[]|e] f1]; [|discriminate].
  intros [= <- _]. reflexivity.
Qed.

(** A move that raises has removed nothing: the directories and the
    source are as they were, and so is every path other than the one the
    move was writing to. *)
Lemma shutil_move_raise s d f e f' :
  shutil_move s d f = (Raise e, f') ->
  dirs f' = dirs f /\
  files f' !! resolve s = files f !! resolve s /\
  (forall k, k <> resolve (real_destination f s d) -> files f' !! k = files f !! k).
Proof.
  unfold shutil_move. unfold mbind at 1 2 3, St_bind, get, mret, St_ret, raise.
  destruct (is_dir f (resolve d) && path_exists f (resolve (real_destination f s d)))
    eqn:Hocc; [intros [= _ <-]; auto|].
  apply real_destination_not_dir in Hocc.
  destruct (try_except _ _ f) as [[[]|e0] f1] eqn:Hmv; [discriminate|].
  intros [= <- <-].
  exact (move_file_raise _ _ _ _ _ Hocc Hmv).
Qed.

(* ===================================================================== *)
(** ** Properties of the string functions *)
(* ===================================================================== *)

Lemma app_cons c s t : String c s +:+ t = String c (s +:+ t).
Proof. reflexivity. Qed.

Lemma app_empty_l t : "" +:+ t = t.
Proof. reflexivity. Qed.

Lemma split_no_sep sep s : Py.contains sep s = false -> Py.split sep s = [s].
Proof.
  induction s as [|c s IH]; simpl; [reflexivity|].
  intros H. apply orb_false_iff in H as [Hc Hs].
  rewrite Hc, (IH Hs). reflexivity.
Qed.

Lemma split_app sep a rest :
  Py.contains sep a = false ->
  Py.split sep (a +:+ String sep rest) = a :: Py.split sep rest.
Proof.
  induction a as [|c a IH]; intros H.
  - rewrite app_empty_l. simpl. rewrite Ascii.eqb_refl. reflexivity.
  - simpl in H. apply orb_false_iff in H as [Hc Ha].
    rewrite app_cons. simpl. rewrite Hc, (IH Ha). reflexivity.
Qed.

(** What a split tells about the string: a first field without the
    separator, and either nothing more or the separator and the rest. *)
Lemma split_inv sep s a l :
  Py.split sep s = a :: l ->
  Py.contains sep a = false /\
  (l = [] /\ s = a \/ exists s2, s = a +:+ String sep s2 /\ Py.split sep s2 = l).
Proof.
  revert a l. induction s as [|c s IH]; intros a l; simpl.
  - intros [= <- <-]. split; [reflexivity|]. left; split; reflexivity.
  - destruct (Ascii.eqb c sep) eqn:Hc.
    + intros [= <- <-]. split; [reflexivity|]. right. exists s.
      apply Ascii.eqb_eq in Hc as ->. split; reflexivity.
    + destruct (Py.split sep s) as [|h t] eqn:Hs.
      * intros [= <- <-]. simpl. rewrite Hc. split; [reflexivity|].
        exfalso. destruct s; simpl in Hs; [discriminate|].
        destruct (Ascii.eqb a sep); [discriminate|].
        destruct (Py.split sep s); discriminate.
      * intros [= <- <-]. destruct (IH h t eq_refl) as [Hh Hcase].
        split; [simpl; rewrite Hc; exact Hh|].
        destruct Hcase as [[-> ->]|(s2 & -> & Hs2)].
        -- left; split; reflexivity.
        -- right. exists s2. split; [reflexivity|exact Hs2].
Qed.

Lemma lstrip_app a c s :
  Py.isspace c = false -> Py.lstrip (a +:+ String c s) = Py.lstrip a +:+ String c s.
Proof.
  intros Hc. unfold Py.lstrip. induction a as [|x a IH].
  - rewrite app_empty_l. simpl. rewrite Hc. reflexivity.
  - rewrite app_cons. simpl. destruct (Py.isspace x); [exact IH|reflexivity].
Qed.

Lemma rstrip_cons_nonspace c s :
  Py.isspace c = false -> Py.rstrip (String c s) = String c (Py.rstrip s).
Proof.
  intros Hc. unfold Py.rstrip. simpl. rewrite Hc.
  destruct (Py.rstrip_by Py.isspace s); reflexivity.
Qed.

Lemma rstrip_app a c s :
  Py.isspace c = false -> Py.rstrip (a +:+ String c s) = a +:+ String c (Py.rstrip s).
Proof.
  intros Hc. induction a as [|x a IH].
  - rewrite !app_empty_l. apply rstrip_cons_nonspace, Hc.
  - rewrite !app_cons. unfold Py.rstrip in *. simpl. rewrite IH.
    destruct a; reflexivity.
Qed.

Lemma rstrip_idem s : Py.rstrip (Py.rstrip s) = Py.rstrip s.
Proof.
  unfold Py.rstrip. induction s as [|c s IH]; simpl; [reflexivity|].
  destruct (Py.rstrip_by Py.isspace s) as [|c' r] eqn:Hr.
  - destruct (Py.isspace c) eqn:Hc; simpl; [reflexivity|]. rewrite Hc. reflexivity.
  - simpl in *. rewrite IH. reflexivity.
Qed.

Lemma lstrip_idem s : Py.lstrip (Py.lstrip s) = Py.lstrip s.
Proof.
  unfold Py.lstrip. induction s as [|c s IH]; simpl; [reflexivity|].
  destruct (Py.isspace c) eqn:Hc; [exact IH|]. simpl. rewrite Hc. reflexivity.
Qed.

Lemma lstrip_rstrip s : Py.lstrip (Py.rstrip s) = Py.rstrip (Py.lstrip s).
Proof.
  induction s as [|c s IH]; [reflexivity|].
  destruct (Py.isspace c) eqn:Hc.
  - transitivity (Py.lstrip (Py.rstrip s)).
    + unfold Py.rstrip, Py.lstrip. simpl.
      destruct (Py.rstrip_by Py.isspace s); simpl; rewrite Hc; reflexivity.
    + rewrite IH. unfold Py.lstrip. simpl. rewrite Hc. reflexivity.
  - rewrite (rstrip_cons_nonspace _ _ Hc).
    unfold Py.lstrip. simpl. rewrite Hc.
    symmetry. apply rstrip_cons_nonspace, Hc.
Qed.

(** Trimming twice, on either side first, is trimming once. *)
Lemma strip_lstrip s : Py.strip (Py.lstrip s) = Py.strip s.
Proof. unfold Py.strip. rewrite lstrip_idem. reflexivity. Qed.

Lemma strip_rstrip s : Py.strip (Py.rstrip s) = Py.strip s.
Proof. unfold Py.strip. rewrite lstrip_rstrip, rstrip_idem. reflexivity. Qed.

Lemma contains_lstrip c s : Py.contains c s = false -> Py.contains c (Py.lstrip s) = false.
Proof.
  unfold Py.lstrip. induction s as [|x s IH]; simpl; [reflexivity|].
  intros H. destruct (Py.isspace x).
  - apply IH. apply orb_false_iff in H as [_ H]. exact H.
  - exact H.
Qed.

Lemma contains_rstrip c s : Py.contains c s = false -> Py.contains c (Py.rstrip s) = false.
Proof.
  unfold Py.rstrip. induction s as [|x s IH]; simpl; [reflexivity|].
  intros H. apply orb_false_iff in H as [Hx Hs]. specialize (IH Hs).
  destruct (Py.rstrip_by Py.isspace s) as [|y r].
  - destruct (Py.isspace x); simpl; [reflexivity|]. rewrite Hx. reflexivity.
  - simpl in *. rewrite Hx. exact IH.
Qed.

Lemma bar_not_space : Py.isspace "|" = false.
Proof. reflexivity. Qed.

(** Trimming the response and then cutting it at the bars gives, up to
    trimming, the first two fields of the untrimmed response. *)
Lemma split_strip_two r a b rest :
  Py.split "|" r = a :: b :: rest ->
  exists a' b' rest',
    Py.split "|" (Py.strip r) = a' :: b' :: rest' /\
    Py.strip a' = Py.strip a /\ Py.strip b' = Py.strip b.
Proof.
  intros Hr. apply split_inv in Hr as [Ha [[[=] _]|(r2 & -> & Hr2)]].
  unfold Py.strip at 1.
  rewrite (lstrip_app _ _ _ bar_not_space), (rstrip_app _ _ _ bar_not_space).
  rewrite (split_app _ _ _ (contains_lstrip _ _ Ha)).
  apply split_inv in Hr2 as [Hb [[-> ->]|(r3 & -> & Hr3)]].
  - rewrite (split_no_sep _ _ (contains_rstrip _ _ Hb)).
    exists (Py.lstrip a), (Py.rstrip b), [].
    split; [reflexivity|]. split; [apply strip_lstrip|apply strip_rstrip].
  - rewrite (rstrip_app _ _ _ bar_not_space), (split_app _ _ _ Hb).
    exists (Py.lstrip a), b, (Py.split "|" (Py.rstrip r3)).
    split; [reflexivity|]. split; [apply strip_lstrip|reflexivity].
Qed.

Lemma split_strip_one r a :
  Py.split "|" r = [a] -> Py.split "|" (Py.strip r) = [Py.strip r].
Proof.
  intros Hr. apply split_inv in Hr as [Ha [[_ ->]|(r2 & _ & Hr2)]].
  - apply split_no_sep. unfold Py.strip. apply contains_rstrip, contains_lstrip, Ha.
  - destruct r2; simpl in Hr2; [discriminate|].
    destruct (Ascii.eqb a0 "|"); [discriminate|].
    destruct (Py.split "|" r2); discriminate.
Qed.

Lemma split_first_none sep s :
  Contract.split_first sep s = None -> Py.split sep s = [s].
Proof.
  induction s as [|c s IH]; simpl; [reflexivity|].
  destruct (Ascii.eqb c sep); [discriminate|].
  destruct (Contract.split_first sep s) as [[a b]|]; [discriminate|].
  intros _. rewrite (IH eq_refl). reflexivity.
Qed.

(* ===================================================================== *)
(** ** The classifier *)
(* ===================================================================== *)

(** The whole behaviour of [analyze_document_with_ai], by cases on what
    the service does with the prompt. *)
Lemma analyze_run text w :
  analyze_document_with_ai text w =
    let prompt := prompt_template +:+ Py.take 2000 text in
    let w1 := add_request prompt w in
    match model w prompt with
    | Ok (mkResponse (Ok r)) =>
        match Py.split "|" (Py.strip r) with
        | a :: b :: _ =>
            (Ok (Py.strip a, Py.replace " " "_" (Py.strip b)), w1)
        | _ =>
            (Ok Contract.fallback,
             add_log (ERROR, "AI API Error: list index out of range") w1)
        end
    | Ok (mkResponse (Raise e)) | Raise e =>
        (Ok Contract.fallback, add_log (ERROR, "AI API Error: " +:+ exc_str e) w1)
    end.
Proof.
  unfold analyze_document_with_ai, generate_content, logging_error, logging_log,
    getitem; unfold_st. simpl.
  destruct (model w _) as [[[r|e]]|e]; simpl; try reflexivity.
  destruct (Py.split "|" (Py.strip r)) as [|a [|b l]]; reflexivity.
Qed.

(** The classifier touches neither the file system nor the clock, and its
    answer depends on the world through the service alone. *)
Lemma analyze_frame text w r w' :
  analyze_document_with_ai text w = (r, w') ->
  fs w' = fs w /\ today w' = today w /\ model w' = model w /\ console w' = console w.
Proof.
  rewrite analyze_run. simpl.
  destruct (model w _) as [[[x|e]]|e]; simpl;
    [destruct (Py.split "|" (Py.strip x)) as [|a [|b l]]|..];
    intros [= <- <-]; auto.
Qed.

Lemma analyze_stdout text w r w' :
  analyze_document_with_ai text w = (r, w') -> stdout_encodes w' = stdout_encodes w.
Proof.
  rewrite analyze_run. simpl.
  destruct (model w _) as [[[x|e]]|e]; simpl;
    [destruct (Py.split "|" (Py.strip x)) as [|a [|b l]]|..];
    intros [= <- <-]; auto.
Qed.

Lemma analyze_result_model text w1 w2 :
  model w1 = model w2 ->
  fst (analyze_document_with_ai text w1) = fst (analyze_document_with_ai text w2).
Proof.
  intros Hm. rewrite !analyze_run. simpl. rewrite Hm.
  destruct (model w2 _) as [[[x|e]]|e]; simpl;
    [destruct (Py.split "|" (Py.strip x)) as [|a [|b l]]|..]; reflexivity.
Qed.

(** C9. The classifier is total: whatever the text and whatever the
    service does (it answers, it raises, the answer has no readable text,
    the answer has no bar), [analyze_document_with_ai] returns a pair and
    raises nothing; in each of the error cases the pair is
    (Unclassified, Unknown_Subject). The file system is left as it was. *)
Theorem classify_total (text : string) (w : World) :
  exists category summary w',
    analyze_document_with_ai text w = (Ok (category, summary), w') /\
    fs w' = fs w /\
    match model w (prompt_template +:+ Py.take 2000 text) with
    | Ok (mkResponse (Ok r)) =>
        match Py.split "|" (Py.strip r) with
        | a :: b :: _ =>
            (category, summary) = (Py.strip a, Py.replace " " "_" (Py.strip b))
        | _ => (category, summary) = ("Unclassified", "Unknown_Subject")
        end
    | Ok (mkResponse (Raise _)) | Raise _ =>
        (category, summary) = ("Unclassified", "Unknown_Subject")
    end.
Proof.
  rewrite analyze_run. simpl.
  destruct (model w _) as [[[r|e]]|e]; simpl;
    [destruct (Py.split "|" (Py.strip r)) as [|a [|b l]]|..];
    eexists _, _, _; (split; [reflexivity|split; reflexivity]).
Qed.

(** C2, as the code has it. A response without a bar (splitting it on
    the first bar yields fewer than two parts) makes the classifier return
    exactly (Unclassified, Unknown_Subject); the index error is logged. *)
Theorem no_bar_falls_back (text : string) (w : World) (r : string) :
  model w (prompt_template +:+ Py.take 2000 text) = Ok (mkResponse (Ok r)) ->
  Contract.split_first "|" r = None ->
  exists w',
    analyze_document_with_ai text w = (Ok ("Unclassified", "Unknown_Subject"), w') /\
    last (audit_log w') = Some (ERROR, "AI API Error: list index out of range").
Proof.
  intros Hm Hr. rewrite analyze_run. cbv zeta. rewrite Hm.
  rewrite (split_strip_one r r (split_first_none _ _ Hr)).
  eexists. split; [reflexivity|]. simpl. apply last_snoc.
Qed.

(** C6, as the code has it. When the response has at least two
    bar-separated fields, the category is the first field trimmed and the
    summary is the second field (what stands between the first bar and the
    next one, or the end) trimmed, each space turned into an underscore. *)
Theorem summary_is_second_field (text : string) (w : World) (r a b : string)
    (rest : list string) :
  model w (prompt_template +:+ Py.take 2000 text) = Ok (mkResponse (Ok r)) ->
  Py.split "|" r = a :: b :: rest ->
  exists w',
    analyze_document_with_ai text w =
      (Ok (Py.strip a, Py.replace " " "_" (Py.strip b)), w').
Proof.
  intros Hm Hr. rewrite analyze_run. cbv zeta. rewrite Hm.
  destruct (split_strip_two _ _ _ _ Hr) as (a' & b' & rest' & -> & -> & ->).
  eexists. reflexivity.
Qed.

(* ===================================================================== *)
(** ** The pipeline *)
(* ===================================================================== *)

Lemma set_fs_same w : set_fs (fs w) w = w.
Proof. destruct w; reflexivity. Qed.

Lemma set_fs_add_log r w : set_fs (fs w) (add_log r w) = add_log r w.
Proof. reflexivity. Qed.

Lemma extract_run file_path w :
  extract_text_from_pdf file_path w =
    match fitz_open file_path (fs w) with
    | (Ok doc, _) => (Ok (Some (page_text doc)), w)
    | (Raise e, _) =>
        (Ok None,
         add_log (ERROR, "Failed to read PDF " +:+ file_path +:+ ": " +:+ exc_str e) w)
    end.
Proof.
  unfold extract_text_from_pdf, logging_error, logging_log; unfold_st.
  destruct (fitz_open file_path (fs w)) as [[doc|e] f0] eqn:Hopen;
    apply fitz_open_frame in Hopen as ->; rewrite set_fs_same; reflexivity.
Qed.

(** The whole behaviour of [process_new_file], stage by stage. The file
    system calls are shown on the file system they run on: the reader on
    the initial one, the move on what [mkdir] left. *)
Lemma process_new_file_run file_path w :
  process_new_file file_path w =
    let filename := os_path_basename file_path in
    let w0 :=
      add_log (INFO, "New file detected: " +:+ filename +:+ ". Starting processing...") w in
    match fitz_open file_path (fs w) with
    | (Raise e, _) =>
        (Ok Skipped,
         add_log (ERROR, "Failed to read PDF " +:+ file_path +:+ ": " +:+ exc_str e) w0)
    | (Ok doc, _) =>
        match page_text doc with
        | "" => (Ok Skipped, w0)
        | text =>
            match analyze_document_with_ai text w0 with
            | (Raise e, w1) => (Raise e, w1)
            | (Ok (category, context_summary), w1) =>
                let target_folder := os_path_join PROCESSED_DIR category in
                match Path_mkdir target_folder true (fs w) with
                | (Raise e, _) => (Raise e, w1)
                | (Ok _, f1) =>
                    let new_filename :=
                      new_filename_of (strftime_Ymd (today w)) category context_summary in
                    let new_file_path := os_path_join target_folder new_filename in
                    match shutil_move file_path new_file_path f1 with
                    | (Ok _, f2) =>
                        let w2 :=
                          add_log (INFO, "SUCCESS: Routed '" +:+ filename +:+ "' to '"
                                           +:+ new_file_path +:+ "'")
                            (set_fs f2 w1) in
                        match print ("‚úÖ Processed: " +:+ new_filename) w2 with
                        | (Ok _, w3) => (Ok (Routed new_file_path), w3)
                        | (Raise e, w3) =>
                            (Ok (Failed e),
                             add_log (ERROR, "Failed to route file " +:+ filename +:+ ": "
                                               +:+ exc_str e)
                               w3)
                        end
                    | (Raise e, f2) =>
                        (Ok (Failed e),
                         add_log (ERROR, "Failed to route file " +:+ filename +:+ ": "
                                           +:+ exc_str e)
                           (set_fs f2 w1))
                    end
                end
            end
        end
    end.
Proof.
  unfold process_new_file, extract_text_from_pdf, logging_info, logging_error,
    logging_log, time_strftime_Ymd; unfold_st. cbn [fs add_log].
  destruct (fitz_open file_path (fs w)) as [[doc|e] f0] eqn:Hopen.
  - apply fitz_open_frame in Hopen as ->.
    rewrite set_fs_add_log.
    destruct (page_text doc) as [|c t] eqn:Htext; [reflexivity|].
    destruct (analyze_document_with_ai _ _) as [[[category summary]|e] w1] eqn:Han;
      [|reflexivity].
    apply analyze_frame in Han as (Hfs & Hday & _ & _). cbn [fs add_log] in Hfs, Hday.
    rewrite Hfs.
    destruct (Path_mkdir _ true (fs w)) as [[[]|e] f1] eqn:Hmk.
    + cbn [today set_fs]. rewrite Hday. cbn [fs set_fs].
      destruct (shutil_move _ _ f1) as [[r|e] f2] eqn:Hmv; [|reflexivity].
      cbv zeta. destruct (print _ _) as [[[]|e] w3]; reflexivity.
    + apply Path_mkdir_raise in Hmk as ->. rewrite <- Hfs, set_fs_same. reflexivity.
  - apply fitz_open_frame in Hopen as ->. reflexivity.
Qed.

(** The classifier's answer inside the pipeline is its answer on the
    initial world: the detection record does not reach the service. *)
Lemma analyze_after_detection text r w :
  fst (analyze_document_with_ai text (add_log r w)) =
  fst (analyze_document_with_ai text w).
Proof. apply analyze_result_model. reflexivity. Qed.

Lemma fitz_open_lookup p f :
  fitz_open p f =
    match files f !! resolve p with
    | Some (PdfDoc pages) => (Ok pages, f)
    | Some (NotPdf _) =>
        (Raise (mkExc FileDataError ("Failed to open file '" +:+ p +:+ "'.")), f)
    | None => (Raise (mkExc FileNotFoundError ("no such file: '" +:+ p +:+ "'")), f)
    end.
Proof.
  unfold fitz_open; unfold_st.
  destruct (files f !! resolve p) as [[pages|bytes]|]; reflexivity.
Qed.

(** C7. When extraction fails (the reader raises, so the extractor
    returns nothing, or the document yields no text), [process_new_file]
    ends in [Skipped]: no prompt is sent to the service, nothing is
    printed, and the file system, the source file included, is as it was. *)
Theorem failed_extraction_skips (file_path : string) (w : World) :
  fst (extract_text_from_pdf file_path w) = Ok None \/
  fst (extract_text_from_pdf file_path w) = Ok (Some "") ->
  exists w',
    process_new_file file_path w = (Ok Skipped, w') /\
    fs w' = fs w /\ requests w' = requests w /\ console w' = console w.
Proof.
  rewrite extract_run, process_new_file_run. cbv zeta.
  destruct (fitz_open file_path (fs w)) as [[doc|e] f0]; cbn [fst].
  - intros [[=]|[= ->]]. eexists. split; [reflexivity|]. auto.
  - intros _. eexists. split; [reflexivity|]. auto.
Qed.

(** What a run that got past the extractor went through. *)
Lemma process_inv file_path w o w' :
  process_new_file file_path w = (Ok o, w') -> o <> Skipped ->
  exists doc category summary f1,
    files (fs w) !! resolve file_path = Some (PdfDoc doc) /\
    page_text doc <> "" /\
    fst (analyze_document_with_ai (page_text doc) w) = Ok (category, summary) /\
    Path_mkdir (os_path_join PROCESSED_DIR category) true (fs w) = (Ok tt, f1) /\
    let dest :=
      os_path_join (os_path_join PROCESSED_DIR category)
        (new_filename_of (strftime_Ymd (today w)) category summary) in
    ((exists r, o = Routed dest /\ shutil_move file_path dest f1 = (Ok r, fs w')) \/
     (exists e f2, o = Failed e /\ shutil_move file_path dest f1 = (Raise e, f2) /\
                   fs w' = f2) \/
     (exists r e, o = Failed e /\ shutil_move file_path dest f1 = (Ok r, fs w') /\
                  exc_class e = UnicodeEncodeError)).
Proof.
  rewrite process_new_file_run. cbv zeta.
  destruct (fitz_open file_path (fs w)) as [[doc|e] f0] eqn:Hopen;
    [|intros [= <- _] Ho; contradiction].
  apply fitz_open_ok in Hopen.
  destruct (page_text doc) as [|c t] eqn:Htext; [intros [= <- _] Ho; contradiction|].
  destruct (analyze_document_with_ai (String c t) (add_log _ w))
    as [[[category summary]|e] w1] eqn:Han; [|discriminate].
  match type of Han with
  | analyze_document_with_ai ?x (add_log ?r w) = _ =>
      pose proof (analyze_after_detection x r w) as Hsame
  end.
  rewrite Han in Hsame. cbn [fst] in Hsame.
  apply analyze_frame in Han as (Hfs & _).
  destruct (Path_mkdir _ true (fs w)) as [[[]|e] f1] eqn:Hmk; [|discriminate].
  destruct (shutil_move _ _ f1) as [[r|e] f2] eqn:Hmv;
    [unfold print; cbn [stdout_encodes add_log set_fs];
     destruct (stdout_encodes w1 _)|];
    intros [= <- <-] _;
    exists doc, category, summary, f1; rewrite Htext;
    (split; [exact Hopen|]); (split; [discriminate|]);
    (split; [symmetry; exact Hsame|]); (split; [exact Hmk|]).
  - left. exists r. split; [reflexivity|exact Hmv].
  - right. right. eexists r, _. split; [reflexivity|]. split; [exact Hmv|reflexivity].
  - right. left. exists e, f2. split; [reflexivity|]. split; [exact Hmv|reflexivity].
Qed.

Lemma endswith_app c a b : b <> "" -> Py.endswith c (a +:+ b) = Py.endswith c b.
Proof.
  intros Hb. induction a as [|x a IH]; [reflexivity|].
  rewrite app_cons. simpl. rewrite IH.
  destruct (a +:+ b) eqn:Hab; [|reflexivity].
  destruct a; [rewrite app_empty_l in Hab; contradiction|discriminate].
Qed.

Lemma os_path_join_relative a b :
  a <> "" -> Py.endswith "/" a = false -> Py.startswith "/" b = false ->
  os_path_join a b = a +:+ "/" +:+ b.
Proof.
  intros Ha He Hs. unfold os_path_join. rewrite Hs, He.
  rewrite bool_decide_eq_false_2 by exact Ha. reflexivity.
Qed.

Lemma digit_not_slash n : Ascii.eqb (digit n) "/" = false.
Proof.
  unfold digit. pose proof (Nat.mod_upper_bound n 10 ltac:(lia)) as Hlt.
  destruct (n mod 10) as [|k]; [reflexivity|].
  do 9 (destruct k as [|k]; [reflexivity|]). lia.
Qed.

Lemma new_filename_relative d category summary :
  Py.startswith "/" (new_filename_of (strftime_Ymd d) category summary) = false.
Proof. apply digit_not_slash. Qed.



Lemma is_dir_dirs f g k : dirs f = dirs g -> is_dir f k = is_dir g k.
Proof. unfold is_dir. intros ->. reflexivity. Qed.

Lemma digit_value_digit n : Contract.digit_value (digit n) = Some (n mod 10).
Proof.
  unfold Contract.digit_value, digit.
  pose proof (Nat.mod_upper_bound n 10 ltac:(lia)) as Hlt.
  rewrite nat_ascii_embedding by lia.
  replace (48 <=? 48 + n mod 10)%nat with true by (symmetry; apply Nat.leb_le; lia).
  replace (48 + n mod 10 <=? 57)%nat with true by (symmetry; apply Nat.leb_le; lia).
  cbn [andb]. f_equal. lia.
Qed.

Lemma strftime_eight d :
  strftime_Ymd d =
    String (digit (year d / 1000)) (String (digit (year d / 100))
      (String (digit (year d / 10)) (String (digit (year d))
        (String (digit (month d / 10)) (String (digit (month d))
          (String (digit (day d / 10)) (String (digit (day d)) ""))))))).
Proof. reflexivity. Qed.

Lemma four_digits_value y :
  y / 1000 < 10 ->
  1000 * ((y / 1000) mod 10) + 100 * ((y / 100) mod 10) + 10 * ((y / 10) mod 10) + y mod 10
  = y.
Proof.
  intros H.
  replace (y / 1000) with (y / 10 / 10 / 10) in *
    by (rewrite !Nat.Div0.div_div; reflexivity).
  replace (y / 100) with (y / 10 / 10) by (rewrite !Nat.Div0.div_div; reflexivity).
  pose proof (Nat.div_mod_eq y 10). pose proof (Nat.div_mod_eq (y / 10) 10).
  pose proof (Nat.div_mod_eq (y / 10 / 10) 10).
  rewrite (Nat.mod_small (y / 10 / 10 / 10) 10) by exact H.
  generalize dependent (y / 10 / 10 / 10). generalize dependent (y / 10 / 10 mod 10).
  generalize dependent (y / 10 / 10). generalize dependent (y / 10 mod 10).
  generalize dependent (y / 10). generalize dependent (y mod 10). intros. lia.
Qed.

Lemma two_digits_value m : m < 100 -> 10 * ((m / 10) mod 10) + m mod 10 = m.
Proof.
  intros H. rewrite (Nat.mod_small (m / 10) 10)
    by (apply Nat.Div0.div_lt_upper_bound; exact H).
  pose proof (Nat.div_mod_eq m 10). lia.
Qed.

(** The time stamp is eight characters long and reads back as the date it
    was made from. *)
Lemma strftime_length d : String.length (strftime_Ymd d) = 8.
Proof. rewrite strftime_eight. reflexivity. Qed.

Lemma read_date_strftime d :
  year d < 10 * 1000 -> month d < 100 -> day d < 100 ->
  Contract.read_date (strftime_Ymd d) = Some d.
Proof.
  intros Hy Hm Hd. rewrite strftime_eight. unfold Contract.read_date.
  rewrite !digit_value_digit. cbn [mbind option_bind].
  rewrite four_digits_value by (apply Nat.Div0.div_lt_upper_bound; exact Hy).
  rewrite !two_digits_value by assumption.
  destruct d; reflexivity.
Qed.

(** C5, as the code has it. For a routed file the computed destination
    path is [os.path.join(os.path.join(archiveRoot, category), filename)]
    with filename [{YYYYMMDD}_{category}_{summary}.pdf]: category and
    summary are the classifier's answer for the file's text, and the time
    stamp is eight characters that read back as the date the clock shows
    when the file is routed. With a category that is not empty and neither
    starts nor ends with a slash the path is
    [./organized_docs/<category>/<YYYYMMDD>_<category>_<summary>.pdf]. The
    file's content is found at that path afterwards, unless a directory
    stands there: then it is found inside that directory under the source's
    own base name. *)
Theorem routed_destination (file_path : string) (w w' : World) (dest : string) :
  process_new_file file_path w = (Ok (Routed dest), w') ->
  exists doc category summary timestamp,
    files (fs w) !! resolve file_path = Some (PdfDoc doc) /\
    fst (analyze_document_with_ai (page_text doc) w) = Ok (category, summary) /\
    dest = os_path_join (os_path_join PROCESSED_DIR category)
             (timestamp +:+ "_" +:+ category +:+ "_" +:+ summary +:+ ".pdf") /\
    String.length timestamp = 8 /\
    (year (today w) < 10 * 1000 -> month (today w) < 100 -> day (today w) < 100 ->
     Contract.read_date timestamp = Some (today w)) /\
    (is_dir (fs w') (resolve dest) = false ->
     files (fs w') !! resolve dest = Some (PdfDoc doc)) /\
    (is_dir (fs w') (resolve dest) = true ->
     files (fs w')
       !! resolve (os_path_join dest
                     (os_path_basename (Py.rstrip_by (Ascii.eqb "/") file_path)))
       = Some (PdfDoc doc)) /\
    (category <> "" -> Py.startswith "/" category = false ->
     Py.endswith "/" category = false ->
     dest = "./organized_docs/" +:+ category +:+ "/" +:+ timestamp +:+ "_"
              +:+ category +:+ "_" +:+ summary +:+ ".pdf").
Proof.
  intros Hrun. apply process_inv in Hrun as (doc & category & summary & f1 & Hdoc & _ &
    Hcls & Hmk & Hcase); [|discriminate].
  cbv zeta in Hcase.
  destruct Hcase as [(r & [= Hdest] & Hmv)|[(e & f2 & [=] & _)|(r' & e & [=] & _)]].
  exists doc, category, summary, (strftime_Ymd (today w)).
  split; [exact Hdoc|]. split; [exact Hcls|]. split; [exact Hdest|].
  split; [apply strftime_length|]. split; [apply read_date_strftime|].
  apply Path_mkdir_ok in Hmk as (Hfiles & _ & _).
  pose proof (shutil_move_dest _ _ _ _ _ Hmv) as Hr.
  apply shutil_move_ok in Hmv as (data & Hsrc & Hfs' & Hsame).
  rewrite Hfiles, Hdoc in Hsrc. injection Hsrc as <-.
  rewrite <- Hdest in *.
  split; [|split].
  - intros Hnd.
    rewrite (is_dir_dirs _ f1) in Hnd by (rewrite Hfs'; reflexivity).
    rewrite (Hsame Hnd) in Hfs'. rewrite Hfs'. cbn [files]. apply lookup_insert_eq.
  - intros Hd.
    rewrite (is_dir_dirs _ f1) in Hd by (rewrite Hfs'; reflexivity).
    unfold real_destination in Hr. rewrite Hd in Hr. subst r.
    rewrite Hfs'. cbn [files]. apply lookup_insert_eq.
  - intros Hne Hst Hen. rewrite Hdest.
    assert (os_path_join PROCESSED_DIR category = "./organized_docs/" +:+ category) as Htf.
    { rewrite os_path_join_relative; [reflexivity|discriminate|reflexivity|exact Hst]. }
    rewrite Htf.
    rewrite os_path_join_relative; [reflexivity| | |].
    + destruct category; [contradiction|discriminate].
    + rewrite endswith_app by exact Hne. exact Hen.
    + apply (new_filename_relative (today w) category summary).
Qed.

(** C1, as the code has it. When the computed destination path already
    holds a regular file (and no directory), a successful routing moves the
    source onto that very path, computed without any disambiguator: the
    destination then holds the moved file's content in place of the earlier
    one, and the only other change to the files is that the source is gone. *)
Theorem existing_destination_is_replaced
    (file_path : string) (w w' : World) (dest : string) (old : FileData) :
  process_new_file file_path w = (Ok (Routed dest), w') ->
  files (fs w) !! resolve dest = Some old ->
  is_dir (fs w') (resolve dest) = false ->
  exists doc category summary,
    files (fs w) !! resolve file_path = Some (PdfDoc doc) /\
    fst (analyze_document_with_ai (page_text doc) w) = Ok (category, summary) /\
    dest = os_path_join (os_path_join PROCESSED_DIR category)
             (new_filename_of (strftime_Ymd (today w)) category summary) /\
    files (fs w') =
      <[resolve dest := PdfDoc doc]> (delete (resolve file_path) (files (fs w))) /\
    files (fs w') !! resolve dest = Some (PdfDoc doc).
Proof.
  intros Hrun Hold Hnd.
  apply process_inv in Hrun as (doc & category & summary & f1 & Hdoc & _ &
    Hcls & Hmk & Hcase); [|discriminate].
  cbv zeta in Hcase.
  destruct Hcase as [(r & [= Hdest] & Hmv)|[(e & f2 & [=] & _)|(r' & e & [=] & _)]].
  rewrite <- Hdest in Hmv.
  apply Path_mkdir_ok in Hmk as (Hfiles & _ & _).
  apply shutil_move_ok in Hmv as (data & Hsrc & Hfs' & Hsame).
  rewrite (is_dir_dirs _ f1) in Hnd by (rewrite Hfs'; reflexivity).
  rewrite (Hsame Hnd), Hfiles in Hfs'.
  rewrite Hfiles, Hdoc in Hsrc. injection Hsrc as <-.
  exists doc, category, summary.
  split; [exact Hdoc|]. split; [exact Hcls|]. split; [exact Hdest|].
  rewrite Hfs'. cbn [files]. split; [reflexivity|apply lookup_insert_eq].
Qed.


Section MoveFails.

Variables (file_path : string) (w : World) (doc : list string).
Variables (category summary : string) (f1 f2 : FS) (e : PyExc).

Let target_folder := os_path_join PROCESSED_DIR category.
Let new_file_path :=
  os_path_join target_folder (new_filename_of (strftime_Ymd (today w)) category summary).

Hypothesis Hread : files (fs w) !! resolve file_path = Some (PdfDoc doc).
Hypothesis Htext : page_text doc <> "".
Hypothesis Hclass :
  fst (analyze_document_with_ai (page_text doc) w) = Ok (category, summary).
Hypothesis Hmkdir : Path_mkdir target_folder true (fs w) = (Ok tt, f1).
Hypothesis Hmove : shutil_move file_path new_file_path f1 = (Raise e, f2).

Lemma move_fails_run :
  exists w',
    process_new_file file_path w = (Ok (Failed e), w') /\
    fs w' = f2 /\
    last (audit_log w') =
      Some (ERROR, "Failed to route file " +:+ os_path_basename file_path +:+ ": "
                     +:+ exc_str e) /\
    console w' = console w.
Proof.
  pose proof Hclass as Hcls. pose proof Hmkdir as Hmk. pose proof Hmove as Hmv.
  unfold new_file_path, target_folder in Hmk, Hmv.
  rewrite process_new_file_run. cbv zeta.
  rewrite fitz_open_lookup, Hread.
  destruct (page_text doc) as [|c t] eqn:Hpt; [contradiction|].
  destruct (analyze_document_with_ai (String c t) (add_log _ w))
    as [r w1] eqn:Han.
  match type of Han with
  | analyze_document_with_ai ?x (add_log ?l w) = _ =>
      pose proof (analyze_after_detection x l w) as Hsame
  end.
  rewrite Han, Hcls in Hsame. cbn [fst] in Hsame. subst r.
  apply analyze_frame in Han as (_ & _ & _ & Hcon).
  rewrite Hmk, Hmv.
  eexists. split; [reflexivity|]. split; [reflexivity|].
  split; [apply last_snoc|exact Hcon].
Qed.

(** C8. When the move raises, [process_new_file] returns normally in the
    [Failed] outcome, the last audit record is the error
    [Failed to route file <name>: <reason>], and the source file is still
    in place with its content. *)
Theorem failed_move_keeps_source :
  exists w',
    process_new_file file_path w = (Ok (Failed e), w') /\
    last (audit_log w') =
      Some (ERROR, "Failed to route file " +:+ os_path_basename file_path +:+ ": "
                     +:+ exc_str e) /\
    files (fs w') !! resolve file_path = Some (PdfDoc doc).
Proof.
  destruct move_fails_run as (w' & Hrun & Hfs & Hlog & _).
  exists w'. split; [exact Hrun|]. split; [exact Hlog|].
  apply Path_mkdir_ok in Hmkdir as (Hfiles & _ & _).
  apply shutil_move_raise in Hmove as (_ & Hsrc & _).
  rewrite Hfs, Hsrc, Hfiles. exact Hread.
Qed.

(** C10, as the code has it. [mkdir(exist_ok=True)] runs before the
    move: on a directory that exists it returns and changes nothing, and
    the category directory exists on the file system the move runs on.
    When the move then raises, the run ends with that directory still in
    place, with no directory lost and none added but the category's, with
    the source file as it was, and with every regular file as it was except
    possibly the one at the path the move was writing to (the copy that
    [shutil.move] falls back on may have written it before the failure). *)
Theorem failed_move_keeps_directory :
  (forall f, is_dir f (resolve target_folder) = true ->
             Path_mkdir target_folder true f = (Ok tt, f)) /\
  is_dir f1 (resolve target_folder) = true /\
  exists w',
    process_new_file file_path w = (Ok (Failed e), w') /\
    is_dir (fs w') (resolve target_folder) = true /\
    dirs (fs w) ⊆ dirs (fs w') /\
    dirs (fs w') ⊆ {[resolve target_folder]} ∪ dirs (fs w) /\
    files (fs w') !! resolve file_path = files (fs w) !! resolve file_path /\
    (forall k, k <> resolve (real_destination f1 file_path new_file_path) ->
               files (fs w') !! k = files (fs w) !! k).
Proof.
  split; [intros f Hf; apply Path_mkdir_existing, Hf|].
  destruct move_fails_run as (w' & Hrun & Hfs & _ & _).
  destruct (Path_mkdir_ok _ _ _ Hmkdir) as (Hfiles & Hdir & Hdirs).
  destruct (shutil_move_raise _ _ _ _ _ Hmove) as (Hd2 & Hsrc & Hother).
  split; [exact Hdir|].
  exists w'. split; [exact Hrun|]. rewrite Hfs.
  split; [rewrite (is_dir_dirs f2 f1) by exact Hd2; exact Hdir|].
  rewrite Hd2, <- Hfiles.
  split; [destruct Hdirs as [->|Hd1]; [reflexivity|rewrite Hd1; apply union_subseteq_r]|].
  split; [destruct Hdirs as [->|Hd1]; [apply union_subseteq_r|rewrite Hd1; reflexivity]|].
  split; [exact Hsrc|exact Hother].
Qed.

End MoveFails.

(** X15. A [mkdir] that raises is caught by nothing: for a readable
    document with text, the exception raised while making the category
    directory leaves [process_new_file], and the file system is untouched. *)
Lemma mkdir_raise_propagates file_path w doc category summary e f1 :
  files (fs w) !! resolve file_path = Some (PdfDoc doc) ->
  page_text doc <> "" ->
  fst (analyze_document_with_ai (page_text doc) w) = Ok (category, summary) ->
  Path_mkdir (os_path_join PROCESSED_DIR category) true (fs w) = (Raise e, f1) ->
  exists w', process_new_file file_path w = (Raise e, w') /\ fs w' = fs w.
Proof.
  intros Hread Htext Hcls Hmk.
  rewrite process_new_file_run. cbv zeta.
  rewrite fitz_open_lookup, Hread.
  destruct (page_text doc) as [|c t] eqn:Hpt; [contradiction|].
  destruct (analyze_document_with_ai (String c t) (add_log _ w))
    as [r w1] eqn:Han.
  match type of Han with
  | analyze_document_with_ai ?x (add_log ?l w) = _ =>
      pose proof (analyze_after_detection x l w) as Hsame
  end.
  rewrite Han, Hcls in Hsame. cbn [fst] in Hsame. subst r.
  apply analyze_frame in Han as (Hfs & _).
  rewrite Hmk. eexists. split; [reflexivity|exact Hfs].
Qed.

(** C3, at a failing input. The service answers [Legal/Contracts | Acme NDA]
    for a readable document: [mkdir] raises [FileNotFoundError] (the parent
    [organized_docs/Legal] is missing and [parents] is off), the exception
    leaves [process_new_file] and the watchdog handler uncaught, and the
    audit log holds the detection record only. *)
Theorem mkdir_failure_escapes :
  fst (process_new_file "./dropzone/nda.pdf" Scenario.nested_category) =
    Raise (mkExc FileNotFoundError
             "[Errno 2] No such file or directory: './organized_docs/Legal/Contracts'") /\
  audit_log (snd (process_new_file "./dropzone/nda.pdf" Scenario.nested_category)) =
    [(INFO, "New file detected: nda.pdf. Starting processing...")] /\
  fst (on_created (mkEvent false "./dropzone/nda.pdf") Scenario.nested_category) =
    Raise (mkExc FileNotFoundError
             "[Errno 2] No such file or directory: './organized_docs/Legal/Contracts'").
Proof. vm_compute. repeat split. Qed.

(** C1 fails on the code. Two different documents get the same answer on
    the same day: both are routed to the same path, the second replaces the
    first, and one file is left in the archive. *)
Lemma same_day_duplicate_overwrites :
  fst (process_new_file "./dropzone/first.pdf" Scenario.scenario_d) =
    Ok (Routed "./organized_docs/Contract/20240115_Contract_Acme_Deal.pdf") /\
  fst (process_new_file "./dropzone/second.pdf" Scenario.after_first) =
    Ok (Routed "./organized_docs/Contract/20240115_Contract_Acme_Deal.pdf") /\
  files (fs Scenario.after_first)
    !! ["organized_docs"; "Contract"; "20240115_Contract_Acme_Deal.pdf"]
    = Some Scenario.deal_1 /\
  files (fs Scenario.after_second) =
    {[ ["organized_docs"; "Contract"; "20240115_Contract_Acme_Deal.pdf"] := Scenario.deal_2 ]} /\
  ~ Contract.both_kept (fs Scenario.after_second) Scenario.deal_1 Scenario.deal_2.
Proof.
  assert (files (fs Scenario.after_second) =
    {[ ["organized_docs"; "Contract"; "20240115_Contract_Acme_Deal.pdf"] := Scenario.deal_2 ]})
    as Hfinal.
  { rewrite <- (list_to_map_to_list (files (fs Scenario.after_second))).
    assert (map_to_list (files (fs Scenario.after_second)) =
            [(["organized_docs"; "Contract"; "20240115_Contract_Acme_Deal.pdf"],
              Scenario.deal_2)]) as -> by (vm_compute; reflexivity).
    reflexivity. }
  split; [vm_compute; reflexivity|]. split; [vm_compute; reflexivity|].
  split; [vm_compute; reflexivity|]. split; [exact Hfinal|].
  intros (k1 & k2 & Hne & H1 & H2). rewrite Hfinal in H1, H2.
  apply lookup_singleton_Some in H1 as [<- _].
  apply lookup_singleton_Some in H2 as [<- _].
  contradiction.
Qed.

(* ===================================================================== *)
(** ** The contract and the code on concrete responses *)
(* ===================================================================== *)

(** C2 fails on the code. A response whose first part is empty after
    trimming, and one whose second part is, are malformed for the written
    contract; the classifier returns the empty part instead of the
    fall-back pair. *)
Lemma empty_part_is_not_fallback :
  Contract.malformed "| Acme Invoice" = true /\
  fst (analyze_document_with_ai "Invoice #123 from Acme"
         (Scenario.started (Scenario.answers "| Acme Invoice")))
    = Ok ("", "Acme_Invoice") /\
  Contract.malformed "Invoice | " = true /\
  fst (analyze_document_with_ai "Invoice #123 from Acme"
         (Scenario.started (Scenario.answers "Invoice | ")))
    = Ok ("Invoice", "") /\
  ("", "Acme_Invoice") <> Contract.fallback /\
  ("Invoice", "") <> Contract.fallback.
Proof. repeat split; try (vm_compute; reflexivity); discriminate. Qed.

(** C6 fails on the code. For a well-formed response the contract's
    summary (the whole remainder after the first bar, trimmed, each run of
    white space turned into one underscore) is not what the classifier
    returns: two spaces give two underscores, and a second bar cuts the
    summary short. *)
Lemma summary_differs_from_contract :
  Contract.malformed "Invoice | Acme  Q1 Invoice" = false /\
  Contract.summary "Invoice | Acme  Q1 Invoice" = Some "Acme_Q1_Invoice" /\
  fst (analyze_document_with_ai "Invoice #123 from Acme"
         (Scenario.started (Scenario.answers "Invoice | Acme  Q1 Invoice")))
    = Ok ("Invoice", "Acme__Q1_Invoice") /\
  Contract.malformed "Invoice | Acme | Q1" = false /\
  Contract.summary "Invoice | Acme | Q1" = Some "Acme_|_Q1" /\
  fst (analyze_document_with_ai "Invoice #123 from Acme"
         (Scenario.started (Scenario.answers "Invoice | Acme | Q1")))
    = Ok ("Invoice", "Acme").
Proof. repeat split; vm_compute; reflexivity. Qed.


(** C5 fails on the code. A directory stands at the computed destination
    path: the file is routed, the success record names the computed path,
    and no file is at that path; the file is inside the directory, under the
    source's name. *)
Lemma routed_file_is_not_at_destination :
  fst (process_new_file "./dropzone/invoice_q1.pdf" Scenario.directory_at_destination)
    = Ok (Routed "./organized_docs/Invoice/20240115_Invoice_Acme_Q1_Invoice.pdf") /\
  files (fs (snd (process_new_file "./dropzone/invoice_q1.pdf"
                    Scenario.directory_at_destination)))
    !! resolve "./organized_docs/Invoice/20240115_Invoice_Acme_Q1_Invoice.pdf" = None /\
  files (fs (snd (process_new_file "./dropzone/invoice_q1.pdf"
                    Scenario.directory_at_destination)))
    !! ["organized_docs"; "Invoice"; "20240115_Invoice_Acme_Q1_Invoice.pdf";
        "invoice_q1.pdf"]
    = Some Scenario.invoice_q1.
Proof. repeat split; vm_compute; reflexivity. Qed.

(** C10 fails on the code. The drop zone has lost its write permission and
    the destination holds an earlier file: the rename is refused, the copy
    rewrites the destination, the unlink is refused and the move raises.
    The run ends in [Failed] with the source in place and the earlier
    archive file replaced. *)
Lemma failed_move_overwrites_destination :
  fst (process_new_file "./dropzone/second.pdf" Scenario.locked_dropzone)
    = Ok (Failed (permission_denied "./dropzone/second.pdf")) /\
  files (fs Scenario.locked_dropzone) !! resolve "./organized_docs/Contract/20240115_Contract_Acme_Deal.pdf" = Some Scenario.deal_1 /\
  files (fs (snd (process_new_file "./dropzone/second.pdf" Scenario.locked_dropzone)))
    !! resolve "./organized_docs/Contract/20240115_Contract_Acme_Deal.pdf" = Some Scenario.deal_2 /\
  files (fs (snd (process_new_file "./dropzone/second.pdf" Scenario.locked_dropzone)))
    !! resolve "./dropzone/second.pdf" = Some Scenario.deal_2 /\
  files (fs (snd (process_new_file "./dropzone/second.pdf" Scenario.locked_dropzone)))
    <> files (fs Scenario.locked_dropzone).
Proof.
  assert (files (fs Scenario.locked_dropzone) !! resolve "./organized_docs/Contract/20240115_Contract_Acme_Deal.pdf" = Some Scenario.deal_1)
    as Hbefore by (vm_compute; reflexivity).
  assert (files (fs (snd (process_new_file "./dropzone/second.pdf"
                            Scenario.locked_dropzone)))
            !! resolve "./organized_docs/Contract/20240115_Contract_Acme_Deal.pdf" = Some Scenario.deal_2)
    as Hafter by (vm_compute; reflexivity).
  split; [vm_compute; reflexivity|]. split; [exact Hbefore|]. split; [exact Hafter|].
  split; [vm_compute; reflexivity|].
  intros Heq. rewrite Heq, Hbefore in Hafter. clear Heq Hbefore.
  unfold Scenario.deal_1, Scenario.deal_2 in Hafter. discriminate Hafter.
Qed.

(** Scenarios B and C of the written contract, run on the code. *)
Example zero_byte_file_is_skipped :
  fst (process_new_file "./dropzone/bad.pdf" Scenario.scenario_b) = Ok Skipped /\
  files (fs (snd (process_new_file "./dropzone/bad.pdf" Scenario.scenario_b)))
    !! ["dropzone"; "bad.pdf"] = Some (NotPdf "").
Proof. split; vm_compute; reflexivity. Qed.

Example timeout_routes_to_unclassified :
  fst (analyze_document_with_ai "Memo to all staff" Scenario.scenario_c)
    = Ok ("Unclassified", "Unknown_Subject") /\
  fst (process_new_file "./dropzone/memo.pdf" Scenario.scenario_c)
    = Ok (Routed "./organized_docs/Unclassified/20240115_Unclassified_Unknown_Subject.pdf").
Proof. split; vm_compute; reflexivity. Qed.

(* ===================================================================== *)
(** ** The theorems at concrete inputs *)
(* ===================================================================== *)

Lemma with_snd {A B} (x : A * B) (a : A) : fst x = a -> x = (a, snd x).
Proof. destruct x; simpl; intros ->; reflexivity. Qed.

Lemma no_bar_falls_back_witness :
  exists w',
    analyze_document_with_ai "Invoice #123 from Acme"
      (Scenario.started (Scenario.answers "Invoice"))
    = (Ok ("Unclassified", "Unknown_Subject"), w') /\
    last (audit_log w') = Some (ERROR, "AI API Error: list index out of range").
Proof.
  apply (no_bar_falls_back "Invoice #123 from Acme"
           (Scenario.started (Scenario.answers "Invoice")) "Invoice");
    vm_compute; reflexivity.
Defined.

Lemma summary_is_second_field_witness :
  exists w',
    analyze_document_with_ai "Invoice #123 from Acme"
      (Scenario.started (Scenario.answers "Invoice | Acme Q1 Invoice"))
    = (Ok (Py.strip "Invoice ", Py.replace " " "_" (Py.strip " Acme Q1 Invoice")), w').
Proof.
  apply (summary_is_second_field "Invoice #123 from Acme"
           (Scenario.started (Scenario.answers "Invoice | Acme Q1 Invoice"))
           "Invoice | Acme Q1 Invoice" "Invoice " " Acme Q1 Invoice" []);
    vm_compute; reflexivity.
Defined.

Lemma failed_extraction_skips_witness :
  exists w',
    process_new_file "./dropzone/bad.pdf" Scenario.scenario_b = (Ok Skipped, w') /\
    fs w' = fs Scenario.scenario_b /\
    requests w' = requests Scenario.scenario_b /\
    console w' = console Scenario.scenario_b.
Proof.
  apply (failed_extraction_skips "./dropzone/bad.pdf" Scenario.scenario_b).
  left. vm_compute. reflexivity.
Defined.

(** Scenario A on 15 January 2024, and the same file on 31 December 2025. *)
Lemma routed_destination_witness :
  (exists doc category summary timestamp,
     files (fs Scenario.scenario_a) !! resolve "./dropzone/invoice_q1.pdf"
       = Some (PdfDoc doc) /\
     fst (analyze_document_with_ai (page_text doc) Scenario.scenario_a)
       = Ok (category, summary) /\
     "./organized_docs/Invoice/20240115_Invoice_Acme_Q1_Invoice.pdf"
       = os_path_join (os_path_join PROCESSED_DIR category)
           (timestamp +:+ "_" +:+ category +:+ "_" +:+ summary +:+ ".pdf") /\
     String.length timestamp = 8 /\
     (year (today Scenario.scenario_a) < 10 * 1000 ->
      month (today Scenario.scenario_a) < 100 ->
      day (today Scenario.scenario_a) < 100 ->
      Contract.read_date timestamp = Some (today Scenario.scenario_a)) /\
     (is_dir (fs (snd (process_new_file "./dropzone/invoice_q1.pdf" Scenario.scenario_a)))
        (resolve "./organized_docs/Invoice/20240115_Invoice_Acme_Q1_Invoice.pdf") = false ->
      files (fs (snd (process_new_file "./dropzone/invoice_q1.pdf" Scenario.scenario_a)))
        !! resolve "./organized_docs/Invoice/20240115_Invoice_Acme_Q1_Invoice.pdf" = Some (PdfDoc doc)) /\
     (is_dir (fs (snd (process_new_file "./dropzone/invoice_q1.pdf" Scenario.scenario_a)))
        (resolve "./organized_docs/Invoice/20240115_Invoice_Acme_Q1_Invoice.pdf") = true ->
      files (fs (snd (process_new_file "./dropzone/invoice_q1.pdf" Scenario.scenario_a)))
        !! resolve (os_path_join "./organized_docs/Invoice/20240115_Invoice_Acme_Q1_Invoice.pdf"
                      (os_path_basename
                         (Py.rstrip_by (Ascii.eqb "/") "./dropzone/invoice_q1.pdf")))
        = Some (PdfDoc doc)) /\
     (category <> "" -> Py.startswith "/" category = false ->
      Py.endswith "/" category = false ->
      "./organized_docs/Invoice/20240115_Invoice_Acme_Q1_Invoice.pdf"
        = "./organized_docs/" +:+ category +:+ "/" +:+ timestamp +:+ "_"
            +:+ category +:+ "_" +:+ summary +:+ ".pdf")) /\
  (exists doc category summary timestamp,
     files (fs Scenario.new_years_eve) !! resolve "./dropzone/invoice_q1.pdf"
       = Some (PdfDoc doc) /\
     fst (analyze_document_with_ai (page_text doc) Scenario.new_years_eve)
       = Ok (category, summary) /\
     "./organized_docs/Invoice/20251231_Invoice_Acme_Q1_Invoice.pdf"
       = os_path_join (os_path_join PROCESSED_DIR category)
           (timestamp +:+ "_" +:+ category +:+ "_" +:+ summary +:+ ".pdf") /\
     String.length timestamp = 8 /\
     (year (today Scenario.new_years_eve) < 10 * 1000 ->
      month (today Scenario.new_years_eve) < 100 ->
      day (today Scenario.new_years_eve) < 100 ->
      Contract.read_date timestamp = Some (today Scenario.new_years_eve)) /\
     (is_dir (fs (snd (process_new_file "./dropzone/invoice_q1.pdf" Scenario.new_years_eve)))
        (resolve "./organized_docs/Invoice/20251231_Invoice_Acme_Q1_Invoice.pdf") = false ->
      files (fs (snd (process_new_file "./dropzone/invoice_q1.pdf" Scenario.new_years_eve)))
        !! resolve "./organized_docs/Invoice/20251231_Invoice_Acme_Q1_Invoice.pdf" = Some (PdfDoc doc)) /\
     (is_dir (fs (snd (process_new_file "./dropzone/invoice_q1.pdf" Scenario.new_years_eve)))
        (resolve "./organized_docs/Invoice/20251231_Invoice_Acme_Q1_Invoice.pdf") = true ->
      files (fs (snd (process_new_file "./dropzone/invoice_q1.pdf" Scenario.new_years_eve)))
        !! resolve (os_path_join "./organized_docs/Invoice/20251231_Invoice_Acme_Q1_Invoice.pdf"
                      (os_path_basename
                         (Py.rstrip_by (Ascii.eqb "/") "./dropzone/invoice_q1.pdf")))
        = Some (PdfDoc doc)) /\
     (category <> "" -> Py.startswith "/" category = false ->
      Py.endswith "/" category = false ->
      "./organized_docs/Invoice/20251231_Invoice_Acme_Q1_Invoice.pdf"
        = "./organized_docs/" +:+ category +:+ "/" +:+ timestamp +:+ "_"
            +:+ category +:+ "_" +:+ summary +:+ ".pdf")).
Proof.
  split.
  - apply (routed_destination "./dropzone/invoice_q1.pdf" Scenario.scenario_a
             (snd (process_new_file "./dropzone/invoice_q1.pdf" Scenario.scenario_a))
             "./organized_docs/Invoice/20240115_Invoice_Acme_Q1_Invoice.pdf").
    apply with_snd. vm_compute. reflexivity.
  - apply (routed_destination "./dropzone/invoice_q1.pdf" Scenario.new_years_eve
             (snd (process_new_file "./dropzone/invoice_q1.pdf" Scenario.new_years_eve))
             "./organized_docs/Invoice/20251231_Invoice_Acme_Q1_Invoice.pdf").
    apply with_snd. vm_compute. reflexivity.
Defined.

(** Scenario D, second file: the destination holds the first file. *)
Lemma existing_destination_is_replaced_witness :
  files (fs Scenario.after_first)
    !! resolve "./organized_docs/Contract/20240115_Contract_Acme_Deal.pdf"
    = Some Scenario.deal_1 /\
  exists doc category summary,
    files (fs Scenario.after_first) !! resolve "./dropzone/second.pdf"
      = Some (PdfDoc doc) /\
    fst (analyze_document_with_ai (page_text doc) Scenario.after_first)
      = Ok (category, summary) /\
    "./organized_docs/Contract/20240115_Contract_Acme_Deal.pdf"
      = os_path_join (os_path_join PROCESSED_DIR category)
          (new_filename_of (strftime_Ymd (today Scenario.after_first)) category summary) /\
    files (fs Scenario.after_second)
      = <[resolve "./organized_docs/Contract/20240115_Contract_Acme_Deal.pdf" := PdfDoc doc]>
          (delete (resolve "./dropzone/second.pdf") (files (fs Scenario.after_first))) /\
    files (fs Scenario.after_second)
      !! resolve "./organized_docs/Contract/20240115_Contract_Acme_Deal.pdf"
      = Some (PdfDoc doc).
Proof.
  assert (files (fs Scenario.after_first)
            !! resolve "./organized_docs/Contract/20240115_Contract_Acme_Deal.pdf"
          = Some Scenario.deal_1) as Hold by (vm_compute; reflexivity).
  split; [exact Hold|].
  unfold Scenario.after_second.
  apply (existing_destination_is_replaced "./dropzone/second.pdf"
           Scenario.after_first
           (snd (process_new_file "./dropzone/second.pdf" Scenario.after_first))
           "./organized_docs/Contract/20240115_Contract_Acme_Deal.pdf" Scenario.deal_1).
  - apply with_snd. vm_compute. reflexivity.
  - exact Hold.
  - vm_compute. reflexivity.
Defined.


(** A slash in the summary: the parent of the destination is missing. *)
Lemma failed_move_keeps_source_witness :
  exists w',
    process_new_file "./dropzone/report.pdf" Scenario.slash_summary
      = (Ok (Failed (mkExc FileNotFoundError
           "[Errno 2] No such file or directory: './organized_docs/Invoice/20240115_Invoice_Q1/Q2_report.pdf'")),
         w') /\
    last (audit_log w') =
      Some (ERROR, "Failed to route file " +:+ os_path_basename "./dropzone/report.pdf"
                     +:+ ": " +:+
                     "[Errno 2] No such file or directory: './organized_docs/Invoice/20240115_Invoice_Q1/Q2_report.pdf'") /\
    files (fs w') !! resolve "./dropzone/report.pdf" = Some (PdfDoc ["Quarterly report"]).
Proof.
  eapply (failed_move_keeps_source "./dropzone/report.pdf" Scenario.slash_summary
            ["Quarterly report"] "Invoice" "Q1/Q2_report"
            (snd (Path_mkdir "./organized_docs/Invoice" true (fs Scenario.slash_summary)))).
  - vm_compute. reflexivity.
  - discriminate.
  - vm_compute. reflexivity.
  - apply with_snd. vm_compute. reflexivity.
  - apply with_snd. vm_compute. reflexivity.
Defined.

(** The drop zone has lost its write permission and the destination holds
    the first file of scenario D. *)
Lemma failed_move_keeps_directory_witness :
  (forall f, is_dir f (resolve (os_path_join PROCESSED_DIR "Contract")) = true ->
             Path_mkdir (os_path_join PROCESSED_DIR "Contract") true f = (Ok tt, f)) /\
  is_dir (fs Scenario.locked_dropzone) (resolve (os_path_join PROCESSED_DIR "Contract"))
    = true /\
  exists w',
    process_new_file "./dropzone/second.pdf" Scenario.locked_dropzone
      = (Ok (Failed (permission_denied "./dropzone/second.pdf")), w') /\
    is_dir (fs w') (resolve (os_path_join PROCESSED_DIR "Contract")) = true /\
    dirs (fs Scenario.locked_dropzone) ⊆ dirs (fs w') /\
    dirs (fs w') ⊆ {[resolve (os_path_join PROCESSED_DIR "Contract")]}
                    ∪ dirs (fs Scenario.locked_dropzone) /\
    files (fs w') !! resolve "./dropzone/second.pdf"
      = files (fs Scenario.locked_dropzone) !! resolve "./dropzone/second.pdf" /\
    (forall k,
       k <> resolve (real_destination (fs Scenario.locked_dropzone)
                       "./dropzone/second.pdf"
                       (os_path_join (os_path_join PROCESSED_DIR "Contract")
                          (new_filename_of
                             (strftime_Ymd (today Scenario.locked_dropzone))
                             "Contract" "Acme_Deal"))) ->
       files (fs w') !! k = files (fs Scenario.locked_dropzone) !! k).
Proof.
  eapply (failed_move_keeps_directory "./dropzone/second.pdf" Scenario.locked_dropzone
            ["Contract between Acme and Nut"; "Annex"] "Contract" "Acme_Deal"
            (fs Scenario.locked_dropzone)).
  - vm_compute. reflexivity.
  - discriminate.
  - vm_compute. reflexivity.
  - apply Path_mkdir_existing. vm_compute. reflexivity.
  - apply with_snd. vm_compute. reflexivity.
Defined.

(* ===================================================================== *)
(** ** Further properties: the extractor *)
(* ===================================================================== *)

Lemma str_app_assoc a b c : (a +:+ b) +:+ c = a +:+ (b +:+ c).
Proof. induction a as [|x a IH]; [reflexivity|]. rewrite !app_cons, IH. reflexivity. Qed.

Lemma str_app_empty_r a : a +:+ "" = a.
Proof. induction a as [|x a IH]; [reflexivity|]. rewrite app_cons, IH. reflexivity. Qed.

Lemma str_length_app a b : String.length (a +:+ b) = String.length a + String.length b.
Proof. induction a as [|x a IH]; [reflexivity|]. rewrite app_cons. simpl. rewrite IH. reflexivity. Qed.

Lemma foldl_append acc doc :
  foldl (fun text page => text +:+ page) acc doc = acc +:+ page_text doc.
Proof.
  unfold page_text. revert acc. induction doc as [|p doc IH]; intros acc; simpl.
  - symmetry. apply str_app_empty_r.
  - rewrite IH, (IH ("" +:+ p)), app_empty_l, str_app_assoc. reflexivity.
Qed.

(** The text of a document is its pages' text joined in document order. *)
Lemma page_text_cons p doc : page_text (p :: doc) = p +:+ page_text doc.
Proof. unfold page_text at 1. simpl. rewrite app_empty_l. apply foldl_append. Qed.

Lemma page_text_app d1 d2 : page_text (d1 ++ d2) = page_text d1 +:+ page_text d2.
Proof.
  induction d1 as [|p d1 IH]; [reflexivity|].
  simpl. rewrite !page_text_cons, IH, str_app_assoc. reflexivity.
Qed.

(** X1. [extract_text_from_pdf] never raises and never writes to the file
    system. For a path that holds no readable document (nothing there, or
    bytes the reader cannot open) it returns [None] and appends exactly one
    record, the error [Failed to read PDF <path>: <reason>]. *)
Theorem extract_failure_is_logged (file_path : string) (w : World) :
  (forall doc, files (fs w) !! resolve file_path <> Some (PdfDoc doc)) ->
  exists reason w',
    extract_text_from_pdf file_path w = (Ok None, w') /\
    fs w' = fs w /\
    audit_log w' =
      audit_log w ++ [(ERROR, "Failed to read PDF " +:+ file_path +:+ ": " +:+ reason)] /\
    requests w' = requests w /\ console w' = console w.
Proof.
  intros Hno. rewrite extract_run, fitz_open_lookup.
  destruct (files (fs w) !! resolve file_path) as [[doc|bytes]|] eqn:Hf.
  - exfalso. exact (Hno doc eq_refl).
  - eexists _, _. split; [reflexivity|]. auto.
  - eexists _, _. split; [reflexivity|]. auto.
Qed.

(** X2. For a path that holds a document, [extract_text_from_pdf] returns
    the text of all its pages joined in document order, with nothing
    between them, and leaves the whole world (log included) as it was. *)
Theorem extract_joins_pages_in_order (file_path : string) (w : World) (doc : list string) :
  files (fs w) !! resolve file_path = Some (PdfDoc doc) ->
  extract_text_from_pdf file_path w = (Ok (Some (fold_right String.append "" doc)), w).
Proof.
  intros Hf. rewrite extract_run, fitz_open_lookup, Hf.
  assert (page_text doc = fold_right String.append "" doc) as ->; [|reflexivity].
  clear Hf. induction doc as [|p doc IH]; [reflexivity|].
  rewrite page_text_cons. simpl. rewrite IH. reflexivity.
Qed.

(* ===================================================================== *)
(** ** Further properties: the classifier *)
(* ===================================================================== *)

Lemma take_length n s : String.length (Py.take n s) <= n.
Proof.
  revert s. induction n as [|n IH]; intros [|c s]; simpl; try lia.
  specialize (IH s). lia.
Qed.

Lemma take_all n s : String.length s <= n -> Py.take n s = s.
Proof.
  revert s. induction n as [|n IH]; intros [|c s]; simpl; try reflexivity; try lia.
  intros H. rewrite IH by lia. reflexivity.
Qed.

Lemma take_app n head tail : String.length head = n -> Py.take n (head +:+ tail) = head.
Proof.
  revert head. induction n as [|n IH]; intros [|c head] Hlen; try discriminate.
  - destruct tail; reflexivity.
  - injection Hlen as Hlen. rewrite app_cons. cbn [Py.take].
    rewrite (IH _ Hlen). reflexivity.
Qed.

(** X3. One call of [analyze_document_with_ai] sends exactly one request
    to the service: the fixed instruction followed by at most the first
    2000 characters of the text, and by the whole text when it has no more
    than 2000. *)
Theorem one_bounded_request (text : string) (w : World) :
  exists prompt,
    requests (snd (analyze_document_with_ai text w)) = requests w ++ [prompt] /\
    prompt = prompt_template +:+ Py.take 2000 text /\
    String.length prompt <= String.length prompt_template + 2000 /\
    (String.length text <= 2000 -> prompt = prompt_template +:+ text).
Proof.
  exists (prompt_template +:+ Py.take 2000 text).
  split; [|split; [reflexivity|split]].
  - rewrite analyze_run. cbv zeta.
    destruct (model w _) as [[[r|e]]|e];
      [destruct (Py.split "|" (Py.strip r)) as [|a [|b l]]|..]; reflexivity.
  - rewrite str_length_app. pose proof (take_length 2000 text). lia.
  - intros H. rewrite (take_all _ _ H). reflexivity.
Qed.

(** X4. What follows the first 2000 characters of the text has no
    influence on the classification: the same request is sent, the same
    pair comes back, the same records are written. *)
Theorem text_beyond_2000_is_ignored (head tail : string) (w : World) :
  String.length head = 2000 ->
  analyze_document_with_ai (head +:+ tail) w = analyze_document_with_ai head w.
Proof.
  intros Hlen. rewrite !analyze_run. cbv zeta.
  rewrite (take_app _ _ tail Hlen), (take_all 2000 head) by lia. reflexivity.
Qed.

Lemma split_fields_no_sep sep s :
  Forall (fun x => Py.contains sep x = false) (Py.split sep s).
Proof.
  induction s as [|c s IH]; simpl.
  - constructor; [reflexivity|constructor].
  - destruct (Ascii.eqb c sep) eqn:Hc.
    + constructor; [reflexivity|exact IH].
    + destruct (Py.split sep s) as [|h t].
      * constructor; [simpl; rewrite Hc; reflexivity|constructor].
      * inversion IH as [|? ? Hh Ht]; subst.
        constructor; [simpl; rewrite Hc; exact Hh|exact Ht].
Qed.

Lemma contains_strip c s : Py.contains c s = false -> Py.contains c (Py.strip s) = false.
Proof. intros H. unfold Py.strip. apply contains_rstrip, contains_lstrip, H. Qed.

Lemma strip_idem s : Py.strip (Py.strip s) = Py.strip s.
Proof.
  unfold Py.strip. rewrite (lstrip_rstrip (Py.lstrip s)), lstrip_idem, rstrip_idem.
  reflexivity.
Qed.

Lemma replace_no_space s : Py.contains " " (Py.replace " " "_" s) = false.
Proof.
  induction s as [|c s IH]; [reflexivity|]. simpl. rewrite IH.
  destruct (Ascii.eqb c " ") eqn:Hc; [reflexivity|]. rewrite Hc. reflexivity.
Qed.

Lemma replace_keeps_no_bar s :
  Py.contains "|" s = false -> Py.contains "|" (Py.replace " " "_" s) = false.
Proof.
  induction s as [|c s IH]; [reflexivity|]. simpl.
  intros H. apply orb_false_iff in H as [Hc Hs]. rewrite (IH Hs).
  destruct (Ascii.eqb c " "); [reflexivity|]. rewrite Hc. reflexivity.
Qed.

(** X5. Whatever the service answers, the pair the classifier returns has
    a summary without any space and without any bar, and a category
    without any bar and with no white space at either end. *)
Theorem classifier_output_shape (text : string) (w : World) :
  exists category summary w',
    analyze_document_with_ai text w = (Ok (category, summary), w') /\
    Py.contains " " summary = false /\
    Py.contains "|" summary = false /\
    Py.contains "|" category = false /\
    Py.strip category = category.
Proof.
  rewrite analyze_run. cbv zeta.
  destruct (model w _) as [[[r|e]]|e];
    try (eexists _, _, _; split; [reflexivity|]; repeat split; reflexivity).
  pose proof (split_fields_no_sep "|" (Py.strip r)) as Hall.
  destruct (Py.split "|" (Py.strip r)) as [|a [|b l]];
    try (eexists _, _, _; split; [reflexivity|]; repeat split; reflexivity).
  inversion Hall as [|? ? Ha Hrest]; subst. inversion Hrest as [|? ? Hb _]; subst.
  eexists _, _, _. split; [reflexivity|].
  split; [apply replace_no_space|].
  split; [apply replace_keeps_no_bar, contains_strip, Hb|].
  split; [apply contains_strip, Ha|apply strip_idem].
Qed.

(* ===================================================================== *)
(** ** Further properties: the watchdog handler *)
(* ===================================================================== *)

Lemma lower_app a b : Py.lower (a +:+ b) = Py.lower a +:+ Py.lower b.
Proof. induction a as [|c a IH]; [reflexivity|]. rewrite app_cons. simpl. rewrite IH. reflexivity. Qed.

Lemma endswith_str_app suffix a : Py.endswith_str suffix (a +:+ suffix) = true.
Proof.
  induction a as [|c a IH].
  - rewrite app_empty_l. destruct suffix as [|c s]; [reflexivity|].
    change (Py.endswith_str (String c s) (String c s))
      with (String.eqb (String c s) (String c s) || Py.endswith_str (String c s) s).
    rewrite String.eqb_refl. reflexivity.
  - rewrite app_cons.
    change (Py.endswith_str suffix (String c (a +:+ suffix)))
      with (String.eqb (String c (a +:+ suffix)) suffix
            || Py.endswith_str suffix (a +:+ suffix)).
    rewrite IH. apply orb_true_r.
Qed.

Lemma endswith_str_inv suffix s :
  Py.endswith_str suffix s = true -> exists a, s = a +:+ suffix.
Proof.
  induction s as [|c s IH].
  - change (Py.endswith_str suffix "") with (String.eqb "" suffix || false).
    rewrite orb_false_r. intros H. apply String.eqb_eq in H as <-. exists "". reflexivity.
  - change (Py.endswith_str suffix (String c s))
      with (String.eqb (String c s) suffix || Py.endswith_str suffix s).
    intros H. apply orb_true_iff in H as [H|H].
    + apply String.eqb_eq in H as <-. exists "". reflexivity.
    + destruct (IH H) as [a ->]. exists (String c a). reflexivity.
Qed.

(** X6. The handler ignores a directory event and every path whose
    lower-cased form does not end in [.pdf]: it returns at once and the
    world (file system, log, console, requests) is exactly as before. *)
Theorem handler_ignores_other_events (event : FileSystemEvent) (w : World) :
  is_directory event = true \/
  (forall stem, Py.lower (src_path event) <> stem +:+ ".pdf") ->
  on_created event w = (Ok tt, w).
Proof.
  intros H. unfold on_created.
  destruct (is_directory event); [reflexivity|]. destruct H as [[=]|H].
  destruct (Py.endswith_str ".pdf" (Py.lower (src_path event))) eqn:He; [|reflexivity].
  apply endswith_str_inv in He as [stem Hs]. exfalso. exact (H stem Hs).
Qed.

(** X7. The handler accepts the extension in any letter case: for a file
    event whose path ends in [.pdf], [.PDF], [.Pdf], ..., it runs
    [process_new_file] on the path, ends in the world that run ends in, and
    raises exactly when that run raises. *)
Theorem handler_dispatches_pdf (stem ext : string) (w : World) :
  Py.lower ext = ".pdf" ->
  on_created (mkEvent false (stem +:+ ext)) w =
    (match fst (process_new_file (stem +:+ ext) w) with
     | Ok _ => Ok tt
     | Raise e => Raise e
     end,
     snd (process_new_file (stem +:+ ext) w)).
Proof.
  intros Hext. unfold on_created. cbn [is_directory src_path orb].
  rewrite lower_app, Hext, endswith_str_app. cbn [negb].
  unfold mbind, mret, St_bind, St_ret.
  destruct (process_new_file (stem +:+ ext) w) as [[o|e] w']; reflexivity.
Qed.

(* ===================================================================== *)
(** ** Further properties: the routing workflow *)
(* ===================================================================== *)

(** X8. Every run of [process_new_file], whatever its end (skipped,
    routed, failed, or an exception that escapes), appends to the audit log
    and never rewrites it: the detection record for the file comes first,
    followed by at most three more records (a classifier error, the success
    record, and the routing error when [print] raises after the success
    record). It sends at most one request to the service, prints at most
    one line (and only when the file is routed), and leaves the clock, the
    service and the console encoding as they were. *)
Theorem run_leaves_a_trail (file_path : string) (w w' : World) (r : PyResult Outcome) :
  process_new_file file_path w = (r, w') ->
  (exists tail,
     audit_log w' =
       audit_log w ++
       (INFO, "New file detected: " +:+ os_path_basename file_path
                +:+ ". Starting processing...") :: tail /\
     List.length tail <= 3) /\
  (requests w' = requests w \/ exists prompt, requests w' = requests w ++ [prompt]) /\
  (console w' = console w \/
   exists line dest, console w' = console w ++ [line] /\ r = Ok (Routed dest)) /\
  today w' = today w /\ model w' = model w /\ stdout_encodes w' = stdout_encodes w.
Proof.
  rewrite process_new_file_run. cbv zeta.
  destruct (fitz_open file_path (fs w)) as [[doc|e] f0].
  2:{ intros [= <- <-]. cbn. split; [eexists [_]; rewrite <- app_assoc; split; [reflexivity|simpl; lia]|].
      auto. }
  destruct (page_text doc) as [|c t].
  { intros [= <- <-]. cbn. split; [exists []; split; [reflexivity|simpl; lia]|]. auto. }
  rewrite analyze_run. cbv zeta. cbn [model add_log].
  destruct (model w _) as [[[x|x]]|x];
    [destruct (Py.split "|" (Py.strip x)) as [|a [|b l]]|..];
    unfold Contract.fallback; cbv beta iota;
    (match goal with
     | |- context [Path_mkdir ?p true (fs w)] =>
         destruct (Path_mkdir p true (fs w)) as [[[]|e] f1]
     end;
     [match goal with
      | |- context [shutil_move ?s ?d ?f] =>
          destruct (shutil_move s d f) as [[d'|e] f2];
          [unfold print;
           match goal with
           | |- context [if ?b then _ else _] => destruct b
           end|]
      end|]);
    intros [= <- <-];
    cbn [audit_log requests console today model stdout_encodes
         add_log add_line add_request set_fs];
    (split; [first [ exists []; split; [reflexivity|simpl; lia]
                   | eexists [_]; rewrite <- ?app_assoc; split; [reflexivity|simpl; lia]
                   | eexists [_; _]; rewrite <- ?app_assoc; split; [reflexivity|simpl; lia]
                   | eexists [_; _; _]; rewrite <- ?app_assoc; split; [reflexivity|simpl; lia] ]|]);
    (split; [right; eexists; reflexivity|]);
    (split; [first [left; reflexivity | right; eexists _, _; split; reflexivity]|]);
    repeat split; reflexivity.
Qed.

Lemma page_text_empty doc : Forall (fun t => t = "") doc -> page_text doc = "".
Proof.
  induction 1 as [|t doc Ht _ IH]; [reflexivity|].
  rewrite page_text_cons, Ht, IH. reflexivity.
Qed.

(** X9. A readable document without any text (no page, or only empty
    pages) is skipped silently: the run ends in [Skipped] and the only
    record it writes is the detection record; no reason is logged. *)
Theorem textless_document_is_skipped_silently
    (file_path : string) (w : World) (doc : list string) :
  files (fs w) !! resolve file_path = Some (PdfDoc doc) ->
  Forall (fun t => t = "") doc ->
  process_new_file file_path w =
    (Ok Skipped,
     add_log (INFO, "New file detected: " +:+ os_path_basename file_path
                      +:+ ". Starting processing...") w).
Proof.
  intros Hf Hempty. rewrite process_new_file_run. cbv zeta.
  rewrite fitz_open_lookup, Hf, (page_text_empty _ Hempty). reflexivity.
Qed.

Lemma routed_log file_path w dest w' :
  process_new_file file_path w = (Ok (Routed dest), w') ->
  last (audit_log w') =
    Some (INFO, "SUCCESS: Routed '" +:+ os_path_basename file_path +:+ "' to '"
                  +:+ dest +:+ "'").
Proof.
  rewrite process_new_file_run. cbv zeta.
  destruct (fitz_open file_path (fs w)) as [[doc|e] f0]; [|discriminate].
  destruct (page_text doc) as [|c t]; [discriminate|].
  destruct (analyze_document_with_ai _ _) as [[[category summary]|e] w1]; [|discriminate].
  destruct (Path_mkdir _ true (fs w)) as [[[]|e] f1]; [|discriminate].
  destruct (shutil_move _ _ f1) as [[d|e] f2]; [|discriminate].
  unfold print. destruct (stdout_encodes _ _); [|discriminate].
  intros [= <- <-]. cbn [audit_log add_line add_log]. apply last_snoc.
Qed.

(** The effect of a successful routing onto a path that is not a directory. *)
Lemma routed_effect (file_path : string) (w w' : World) (dest : string) :
  process_new_file file_path w = (Ok (Routed dest), w') ->
  is_dir (fs w') (resolve dest) = false ->
  (resolve file_path <> resolve dest -> files (fs w') !! resolve file_path = None) /\
  (forall k, k <> resolve file_path -> k <> resolve dest ->
             files (fs w') !! k = files (fs w) !! k) /\
  (forall d, d ∈ dirs (fs w) -> d ∈ dirs (fs w')) /\
  last (audit_log w') =
    Some (INFO, "SUCCESS: Routed '" +:+ os_path_basename file_path +:+ "' to '"
                  +:+ dest +:+ "'").
Proof.
  intros Hrun Hnd. pose proof (routed_log _ _ _ _ Hrun) as Hlog.
  apply process_inv in Hrun as (doc & category & summary & f1 & Hdoc & _ &
    Hcls & Hmk & Hcase); [|discriminate].
  cbv zeta in Hcase.
  destruct Hcase as [(r & [= Hdest] & Hmv)|[(e & f2 & [=] & _)|(r' & e & [=] & _)]].
  rewrite <- Hdest in Hmv.
  apply Path_mkdir_ok in Hmk as (Hfiles & _ & Hdirs).
  apply shutil_move_ok in Hmv as (data & Hsrc & Hfs' & Hsame).
  rewrite (is_dir_dirs _ f1) in Hnd by (rewrite Hfs'; reflexivity).
  rewrite (Hsame Hnd), Hfiles in Hfs'. rewrite Hfs'. cbn [files dirs].
  split; [|split; [|split; [|exact Hlog]]].
  - intros Hne. rewrite lookup_insert_ne by (intros Heq; apply Hne; symmetry; exact Heq).
    apply lookup_delete_eq.
  - intros k Hk1 Hk2.
    rewrite lookup_insert_ne by (intros Heq; apply Hk2; symmetry; exact Heq).
    apply lookup_delete_ne. intros Heq; apply Hk1; symmetry; exact Heq.
  - intros d Hd. destruct Hdirs as [->|Hd1]; [exact Hd|].
    rewrite Hd1. apply elem_of_union_r. exact Hd.
Qed.

(** X10. A successful routing onto a path that is not a directory moves
    exactly one file: the source path no longer holds a file, every path
    other than source and destination holds what it held, no directory is
    removed, and the last audit record is the success record naming source
    and destination. *)
Theorem routing_moves_one_file (file_path : string) (w w' : World) (dest : string) :
  process_new_file file_path w = (Ok (Routed dest), w') ->
  is_dir (fs w') (resolve dest) = false ->
  (resolve file_path <> resolve dest -> files (fs w') !! resolve file_path = None) /\
  (forall k, k <> resolve file_path -> k <> resolve dest ->
             files (fs w') !! k = files (fs w) !! k) /\
  (forall d, d ∈ dirs (fs w) -> d ∈ dirs (fs w')) /\
  last (audit_log w') =
    Some (INFO, "SUCCESS: Routed '" +:+ os_path_basename file_path +:+ "' to '"
                  +:+ dest +:+ "'").
Proof. exact (routed_effect file_path w w' dest). Qed.

(** X11. A second event for a file that has just been routed is harmless:
    the source is gone, so the second run is skipped, sends nothing to the
    service and leaves the file system, the routed file included, as the
    first run left it. *)
Theorem second_run_is_skipped (file_path : string) (w w1 : World) (dest : string) :
  process_new_file file_path w = (Ok (Routed dest), w1) ->
  is_dir (fs w1) (resolve dest) = false ->
  resolve file_path <> resolve dest ->
  exists w2,
    process_new_file file_path w1 = (Ok Skipped, w2) /\
    fs w2 = fs w1 /\ requests w2 = requests w1.
Proof.
  intros Hrun Hnd Hne.
  destruct (routed_effect _ _ _ _ Hrun Hnd) as (Hgone & _).
  rewrite process_new_file_run. cbv zeta.
  rewrite fitz_open_lookup, (Hgone Hne).
  eexists. split; [reflexivity|]. split; reflexivity.
Qed.

Lemma shutil_move_into_dir s d f r f' :
  shutil_move s d f = (Ok r, f') ->
  is_dir f (resolve d) = true ->
  r = os_path_join d (os_path_basename (Py.rstrip_by (Ascii.eqb "/") s)).
Proof.
  intros H Hd. apply shutil_move_dest in H. rewrite H.
  unfold real_destination. rewrite Hd. reflexivity.
Qed.

(** X12. When the computed destination path names an existing directory,
    a successful routing puts the file inside that directory under the
    source's own name, while the success record in the audit log still
    names the computed path. *)
Theorem routed_into_directory (file_path : string) (w w' : World) (dest : string) :
  process_new_file file_path w = (Ok (Routed dest), w') ->
  is_dir (fs w') (resolve dest) = true ->
  exists doc,
    files (fs w) !! resolve file_path = Some (PdfDoc doc) /\
    files (fs w')
      !! resolve (os_path_join dest
                    (os_path_basename (Py.rstrip_by (Ascii.eqb "/") file_path)))
      = Some (PdfDoc doc) /\
    last (audit_log w') =
      Some (INFO, "SUCCESS: Routed '" +:+ os_path_basename file_path +:+ "' to '"
                    +:+ dest +:+ "'").
Proof.
  intros Hrun Hd. pose proof (routed_log _ _ _ _ Hrun) as Hlog.
  apply process_inv in Hrun as (doc & category & summary & f1 & Hdoc & _ &
    Hcls & Hmk & Hcase); [|discriminate].
  cbv zeta in Hcase.
  destruct Hcase as [(r & [= Hdest] & Hmv)|[(e & f2 & [=] & _)|(r' & e & [=] & _)]].
  rewrite <- Hdest in Hmv.
  apply Path_mkdir_ok in Hmk as (Hfiles & _ & _).
  pose proof (shutil_move_ok _ _ _ _ _ Hmv) as (data & Hsrc & Hfs' & _).
  rewrite (is_dir_dirs _ f1) in Hd by (rewrite Hfs'; reflexivity).
  apply shutil_move_into_dir in Hmv; [|exact Hd]. subst r.
  rewrite Hfiles, Hdoc in Hsrc. injection Hsrc as <-.
  exists doc. split; [exact Hdoc|]. split; [|exact Hlog].
  rewrite Hfs'. cbn [files]. apply lookup_insert_eq.
Qed.

Section PrintFails.

Variables (file_path : string) (w : World) (doc : list string).
Variables (category summary : string) (f1 f2 : FS) (r : string).

Let target_folder := os_path_join PROCESSED_DIR category.
Let new_filename := new_filename_of (strftime_Ymd (today w)) category summary.
Let new_file_path := os_path_join target_folder new_filename.

Hypothesis Hread : files (fs w) !! resolve file_path = Some (PdfDoc doc).
Hypothesis Htext : page_text doc <> "".
Hypothesis Hclass :
  fst (analyze_document_with_ai (page_text doc) w) = Ok (category, summary).
Hypothesis Hmkdir : Path_mkdir target_folder true (fs w) = (Ok tt, f1).
Hypothesis Hmove : shutil_move file_path new_file_path f1 = (Ok r, f2).
Hypothesis Hprint : stdout_encodes w ("‚úÖ Processed: " +:+ new_filename) = false.

(** X16. [print] stands inside the [try] of lines 98-103. When the console
    cannot encode the line, the file has already been moved and the success
    record written; the [except] block then adds the routing error, and the
    run ends in [Failed] with the file at its destination, the source path
    empty and nothing printed. *)
Theorem print_failure_is_logged_as_routing_failure :
  exists e w',
    process_new_file file_path w = (Ok (Failed e), w') /\
    exc_class e = UnicodeEncodeError /\
    fs w' = f2 /\
    files (fs w') !! resolve r = Some (PdfDoc doc) /\
    (resolve file_path <> resolve r -> files (fs w') !! resolve file_path = None) /\
    console w' = console w /\
    exists earlier,
      audit_log w' =
        earlier ++
        [(INFO, "SUCCESS: Routed '" +:+ os_path_basename file_path +:+ "' to '"
                  +:+ new_file_path +:+ "'");
         (ERROR, "Failed to route file " +:+ os_path_basename file_path +:+ ": "
                   +:+ exc_str e)].
Proof.
  pose proof Hclass as Hcls. pose proof Hmkdir as Hmk. pose proof Hmove as Hmv.
  pose proof Hprint as Hpr.
  unfold new_file_path, new_filename, target_folder in Hmk, Hmv, Hpr.
  rewrite process_new_file_run. cbv zeta.
  rewrite fitz_open_lookup, Hread.
  destruct (page_text doc) as [|c t] eqn:Hpt; [contradiction|].
  destruct (analyze_document_with_ai (String c t) (add_log _ w))
    as [res w1] eqn:Han.
  match type of Han with
  | analyze_document_with_ai ?x (add_log ?l w) = _ =>
      pose proof (analyze_after_detection x l w) as Hsame
  end.
  rewrite Han, Hcls in Hsame. cbn [fst] in Hsame. subst res.
  pose proof (analyze_stdout _ _ _ _ Han) as Henc.
  apply analyze_frame in Han as (_ & _ & _ & Hcon).
  rewrite Hmk, Hmv. unfold print. cbn [stdout_encodes add_log set_fs].
  rewrite Henc. cbn [stdout_encodes add_log]. rewrite Hpr.
  eexists _, _. split; [reflexivity|]. split; [reflexivity|].
  cbn [fs set_fs add_log console audit_log exc_str].
  split; [reflexivity|].
  apply Path_mkdir_ok in Hmk as (Hfiles & _ & _).
  apply shutil_move_ok in Hmv as (data & Hsrc & -> & _).
  rewrite Hfiles, Hread in Hsrc. injection Hsrc as <-. cbn [files].
  split; [apply lookup_insert_eq|].
  split.
  - intros Hne. rewrite lookup_insert_ne by (intros Heq; apply Hne; symmetry; exact Heq).
    apply lookup_delete_eq.
  - split; [exact Hcon|]. eexists. rewrite <- app_assoc. reflexivity.
Qed.

End PrintFails.

(* ===================================================================== *)
(** ** Further properties: start-up *)
(* ===================================================================== *)

Lemma Path_mkdir_top name f :
  resolve name = [name] ->
  is_dir f [name] = true ->
  Path_mkdir name true f = (Ok tt, f).
Proof. intros Hres Hd. apply Path_mkdir_existing. rewrite Hres. exact Hd. Qed.

Lemma ensure_directories_run w :
  ensure_directories w =
    match Path_mkdir "dropzone" true (fs w) with
    | (Ok _, f1) =>
        match Path_mkdir "organized_docs" true f1 with
        | (Ok _, f2) => (Ok tt, set_fs f2 w)
        | (Raise e, f2) => (Raise e, set_fs f2 w)
        end
    | (Raise e, f1) => (Raise e, set_fs f1 w)
    end.
Proof.
  unfold ensure_directories, Path_mkdir_parents.
  change (resolve WATCH_DIR) with ["dropzone"].
  change (resolve PROCESSED_DIR) with ["organized_docs"].
  cbn [mkdir_chain].
  change (os_path_join "" "dropzone") with "dropzone".
  change (os_path_join "" "organized_docs") with "organized_docs".
  unfold_st.
  destruct (Path_mkdir "dropzone" true (fs w)) as [[[]|e] f1]; [|reflexivity].
  cbn [fs set_fs].
  destruct (Path_mkdir "organized_docs" true f1) as [[[]|e] f2]; reflexivity.
Qed.

(** X13. When the start-up code of lines 31-32 returns, the drop zone and
    the archive root both exist as directories, no regular file has
    changed, no directory has been removed, and nothing was logged; running
    it again on the result changes nothing. *)
Theorem startup_makes_both_directories (w w' : World) :
  ensure_directories w = (Ok tt, w') ->
  is_dir (fs w') (resolve WATCH_DIR) = true /\
  is_dir (fs w') (resolve PROCESSED_DIR) = true /\
  files (fs w') = files (fs w) /\
  (forall d, d ∈ dirs (fs w) -> d ∈ dirs (fs w')) /\
  audit_log w' = audit_log w /\
  ensure_directories w' = (Ok tt, w').
Proof.
  rewrite ensure_directories_run.
  destruct (Path_mkdir "dropzone" true (fs w)) as [[[]|e] f1] eqn:H1; [|discriminate].
  destruct (Path_mkdir "organized_docs" true f1) as [[[]|e] f2] eqn:H2; [|discriminate].
  intros [= <-]. cbn [fs set_fs audit_log].
  apply Path_mkdir_ok in H1 as (Hf1 & Hd1 & Hs1).
  apply Path_mkdir_ok in H2 as (Hf2 & Hd2 & Hs2).
  change (resolve "dropzone") with ["dropzone"] in *.
  change (resolve "organized_docs") with ["organized_docs"] in *.
  change (resolve WATCH_DIR) with ["dropzone"].
  change (resolve PROCESSED_DIR) with ["organized_docs"].
  assert (forall d, d ∈ dirs f1 -> d ∈ dirs f2) as Hmono2.
  { intros d Hd. destruct Hs2 as [->|Hs2]; [exact Hd|].
    rewrite Hs2. apply elem_of_union_r. exact Hd. }
  assert (is_dir f2 ["dropzone"] = true) as Hd1'.
  { unfold is_dir in *. apply bool_decide_eq_true. apply bool_decide_eq_true in Hd1.
    destruct Hd1 as [[=]|Hd1]. right. apply Hmono2, Hd1. }
  split; [exact Hd1'|]. split; [exact Hd2|].
  split; [rewrite Hf2; exact Hf1|]. split; [|split; [reflexivity|]].
  - intros d Hd. apply Hmono2. destruct Hs1 as [->|Hs1]; [exact Hd|].
    rewrite Hs1. apply elem_of_union_r. exact Hd.
  - rewrite ensure_directories_run. cbn [fs set_fs].
    rewrite (Path_mkdir_top "dropzone" f2 eq_refl Hd1').
    rewrite (Path_mkdir_top "organized_docs" f2 eq_refl Hd2).
    reflexivity.
Qed.

Lemma os_mkdir_top_raise name f e f' :
  resolve name = [name] ->
  os_mkdir name f = (Raise e, f') ->
  exc_class e = FileExistsError \/ exc_class e = NotADirectoryError \/
  (exc_class e = PermissionError /\ writable f [] = false /\ path_exists f [name] = false).
Proof.
  intros Hres. unfold os_mkdir, entry_error; unfold_st. rewrite Hres.
  destruct (path_exists f [name]); [intros [= <- _]; left; reflexivity|].
  destruct (existsb (is_file f) (ancestors [name]));
    [intros [= <- _]; right; left; reflexivity|].
  assert (is_dir f (parent [name]) = true) as ->
    by (apply bool_decide_eq_true; left; reflexivity).
  cbn [negb]. change (parent [name]) with (@nil string).
  destruct (writable f []); [discriminate|].
  intros [= <- _]. right; right. split; [reflexivity|]. split; reflexivity.
Qed.

Lemma Path_mkdir_top_raise name f e f' :
  resolve name = [name] ->
  Path_mkdir name true f = (Raise e, f') ->
  exc_class e = FileExistsError \/ exc_class e = NotADirectoryError \/
  (exc_class e = PermissionError /\ writable f [] = false /\ path_exists f [name] = false).
Proof.
  intros Hres. unfold Path_mkdir; unfold_st.
  destruct (os_mkdir name f) as [[[]|e0] f0] eqn:Hmk; [discriminate|].
  pose proof (os_mkdir_raise _ _ _ _ Hmk) as ->.
  apply (os_mkdir_top_raise _ _ _ _ Hres) in Hmk.
  destruct (bool_decide (exc_class e0 = FileNotFoundError)) eqn:Hb.
  - apply bool_decide_eq_true in Hb.
    destruct Hmk as [H|[H|(H & _)]]; rewrite H in Hb; discriminate.
  - destruct (negb true || negb (is_dir f (resolve name))); [|discriminate].
    intros [= <- _]. exact Hmk.
Qed.

Lemma Path_mkdir_top_occupied name f data :
  resolve name = [name] ->
  files f !! [name] = Some data ->
  is_dir f [name] = false ->
  exists e, Path_mkdir name true f = (Raise e, f) /\
            (exc_class e = FileExistsError \/ exc_class e = NotADirectoryError).
Proof.
  intros Hres Hfile Hd.
  assert (path_exists f [name] = true) as Hex.
  { unfold path_exists, is_file. rewrite Hfile.
    rewrite bool_decide_eq_true_2 by (eexists; reflexivity). apply orb_true_r. }
  destruct (Path_mkdir name true f) as [[[]|e] f'] eqn:Hmk.
  - exfalso. unfold Path_mkdir in Hmk; unfold_st.
    destruct (os_mkdir name f) as [[[]|e0] f0] eqn:Hos.
    + unfold os_mkdir in Hos; unfold_st. rewrite Hres, Hex in Hos. discriminate.
    + apply os_mkdir_raise in Hos as ->.
      destruct (bool_decide (exc_class e0 = FileNotFoundError)); [discriminate|].
      rewrite Hres, Hd in Hmk. discriminate.
  - exists e. pose proof (Path_mkdir_raise _ _ _ _ _ Hmk) as Heq. rewrite Heq in *.
    split; [reflexivity|].
    destruct (Path_mkdir_top_raise _ _ _ _ Hres Hmk) as [H|[H|(_ & _ & H)]];
      [left; exact H|right; exact H|].
    rewrite Hex in H. discriminate.
Qed.

(** X14. When a regular file (and no directory) stands at the drop zone's
    path or at the archive root's path, the start-up code of lines 31-32
    raises, so the module does not load, and no regular file is changed.
    The exception is [FileExistsError] or [NotADirectoryError]; only when
    the working directory has no write permission can it be the
    [PermissionError] of making the drop zone. *)
Theorem startup_fails_on_occupied_path (w : World) (data : FileData) :
  (files (fs w) !! resolve WATCH_DIR = Some data /\
   is_dir (fs w) (resolve WATCH_DIR) = false) \/
  (files (fs w) !! resolve PROCESSED_DIR = Some data /\
   is_dir (fs w) (resolve PROCESSED_DIR) = false) ->
  exists e w',
    ensure_directories w = (Raise e, w') /\
    (exc_class e = FileExistsError \/ exc_class e = NotADirectoryError \/
     (exc_class e = PermissionError /\ writable (fs w) [] = false)) /\
    files (fs w') = files (fs w).
Proof.
  change (resolve WATCH_DIR) with ["dropzone"].
  change (resolve PROCESSED_DIR) with ["organized_docs"].
  intros Hocc. rewrite ensure_directories_run.
  destruct (Path_mkdir "dropzone" true (fs w)) as [[[]|e] f1] eqn:H1.
  - destruct Hocc as [[Hfile Hd]|[Hfile Hd]].
    + destruct (Path_mkdir_top_occupied "dropzone" (fs w) data eq_refl Hfile Hd)
        as (e & He & _).
      rewrite He in H1. discriminate.
    + apply Path_mkdir_ok in H1 as (Hf1 & _ & Hs1).
      assert (is_dir f1 ["organized_docs"] = false) as Hd1.
      { destruct Hs1 as [->|Hs1]; [exact Hd|].
        unfold is_dir in *. apply bool_decide_eq_false. apply bool_decide_eq_false in Hd.
        rewrite Hs1. change (resolve "dropzone") with ["dropzone"].
        intros [[=]|Hin]. apply elem_of_union in Hin as [Hin|Hin].
        - apply elem_of_singleton in Hin. discriminate.
        - apply Hd. right. exact Hin. }
      rewrite <- Hf1 in Hfile.
      destruct (Path_mkdir_top_occupied "organized_docs" f1 data eq_refl Hfile Hd1)
        as (e & He & Hcls).
      rewrite He. exists e, (set_fs f1 w).
      split; [reflexivity|]. split; [|exact Hf1].
      destruct Hcls as [H|H]; [left; exact H|right; left; exact H].
  - exists e, (set_fs f1 w). split; [reflexivity|].
    split.
    + destruct (Path_mkdir_top_raise "dropzone" _ _ _ eq_refl H1) as [H|[H|(H & Hw & _)]];
        [left; exact H|right; left; exact H|right; right; split; assumption].
    + apply Path_mkdir_raise in H1 as ->. reflexivity.
Qed.

(* ===================================================================== *)
(** ** The further properties at concrete inputs *)
(* ===================================================================== *)

Lemma with_both {A B} (x : A * B) : x = (fst x, snd x).
Proof. destruct x; reflexivity. Qed.

Lemma extract_failure_is_logged_witness :
  exists reason w',
    extract_text_from_pdf "./dropzone/bad.pdf" Scenario.scenario_b = (Ok None, w') /\
    fs w' = fs Scenario.scenario_b /\
    audit_log w' =
      audit_log Scenario.scenario_b ++
      [(ERROR, "Failed to read PDF " +:+ "./dropzone/bad.pdf" +:+ ": " +:+ reason)] /\
    requests w' = requests Scenario.scenario_b /\
    console w' = console Scenario.scenario_b.
Proof.
  apply (extract_failure_is_logged "./dropzone/bad.pdf" Scenario.scenario_b).
  intros doc. vm_compute. discriminate.
Defined.

Lemma extract_joins_pages_in_order_witness :
  extract_text_from_pdf "./dropzone/second.pdf" Scenario.scenario_d =
    (Ok (Some (fold_right String.append ""
                 ["Contract between Acme and Nut"; "Annex"])),
     Scenario.scenario_d).
Proof.
  apply (extract_joins_pages_in_order "./dropzone/second.pdf" Scenario.scenario_d).
  vm_compute. reflexivity.
Defined.

Lemma one_bounded_request_witness :
  exists prompt,
    requests (snd (analyze_document_with_ai "Invoice #123 from Acme" Scenario.scenario_a))
      = requests Scenario.scenario_a ++ [prompt] /\
    prompt = prompt_template +:+ Py.take 2000 "Invoice #123 from Acme" /\
    String.length prompt <= String.length prompt_template + 2000 /\
    (String.length "Invoice #123 from Acme" <= 2000 ->
     prompt = prompt_template +:+ "Invoice #123 from Acme").
Proof. exact (one_bounded_request "Invoice #123 from Acme" Scenario.scenario_a). Defined.

Lemma text_beyond_2000_is_ignored_witness :
  String.length Scenario.two_thousand = 2000 /\
  analyze_document_with_ai (Scenario.two_thousand +:+ " and three hundred more")
    Scenario.scenario_a
  = analyze_document_with_ai Scenario.two_thousand Scenario.scenario_a.
Proof.
  assert (String.length Scenario.two_thousand = 2000) as Hlen by (vm_compute; reflexivity).
  split; [exact Hlen|].
  exact (text_beyond_2000_is_ignored Scenario.two_thousand " and three hundred more"
           Scenario.scenario_a Hlen).
Defined.

Lemma handler_ignores_other_events_witness :
  on_created (mkEvent false "./dropzone/notes.txt") Scenario.scenario_a
    = (Ok tt, Scenario.scenario_a) /\
  on_created (mkEvent true "./dropzone/folder.pdf") Scenario.scenario_a
    = (Ok tt, Scenario.scenario_a).
Proof.
  split.
  - apply (handler_ignores_other_events (mkEvent false "./dropzone/notes.txt")).
    right. intros stem Hstem.
    pose proof (endswith_str_app ".pdf" stem) as Hend.
    rewrite <- Hstem in Hend. vm_compute in Hend. discriminate.
  - apply (handler_ignores_other_events (mkEvent true "./dropzone/folder.pdf")).
    left. reflexivity.
Defined.

Lemma handler_dispatches_pdf_witness :
  on_created (mkEvent false ("./dropzone/SCAN" +:+ ".PDF")) Scenario.upper_case =
    (match fst (process_new_file ("./dropzone/SCAN" +:+ ".PDF") Scenario.upper_case) with
     | Ok _ => Ok tt
     | Raise e => Raise e
     end,
     snd (process_new_file ("./dropzone/SCAN" +:+ ".PDF") Scenario.upper_case)) /\
  fst (process_new_file ("./dropzone/SCAN" +:+ ".PDF") Scenario.upper_case)
    = Ok (Routed "./organized_docs/Invoice/20240115_Invoice_Acme_Q1_Invoice.pdf").
Proof.
  split; [|vm_compute; reflexivity].
  apply (handler_dispatches_pdf "./dropzone/SCAN" ".PDF" Scenario.upper_case).
  vm_compute. reflexivity.
Defined.

Lemma run_leaves_a_trail_witness :
  (exists tail,
     audit_log (snd (process_new_file "./dropzone/report.pdf" Scenario.slash_summary)) =
       audit_log Scenario.slash_summary ++
       (INFO, "New file detected: " +:+ os_path_basename "./dropzone/report.pdf"
                +:+ ". Starting processing...") :: tail /\
     List.length tail <= 3) /\
  (requests (snd (process_new_file "./dropzone/report.pdf" Scenario.slash_summary))
     = requests Scenario.slash_summary \/
   exists prompt,
     requests (snd (process_new_file "./dropzone/report.pdf" Scenario.slash_summary))
       = requests Scenario.slash_summary ++ [prompt]) /\
  (console (snd (process_new_file "./dropzone/report.pdf" Scenario.slash_summary))
     = console Scenario.slash_summary \/
   exists line dest,
     console (snd (process_new_file "./dropzone/report.pdf" Scenario.slash_summary))
       = console Scenario.slash_summary ++ [line] /\
     fst (process_new_file "./dropzone/report.pdf" Scenario.slash_summary)
       = Ok (Routed dest)) /\
  today (snd (process_new_file "./dropzone/report.pdf" Scenario.slash_summary))
    = today Scenario.slash_summary /\
  model (snd (process_new_file "./dropzone/report.pdf" Scenario.slash_summary))
    = model Scenario.slash_summary /\
  stdout_encodes (snd (process_new_file "./dropzone/report.pdf" Scenario.slash_summary))
    = stdout_encodes Scenario.slash_summary.
Proof.
  exact (run_leaves_a_trail "./dropzone/report.pdf" Scenario.slash_summary _ _
           (with_both (process_new_file "./dropzone/report.pdf" Scenario.slash_summary))).
Defined.

Lemma textless_document_is_skipped_silently_witness :
  process_new_file "./dropzone/blank.pdf" Scenario.blank =
    (Ok Skipped,
     add_log (INFO, "New file detected: " +:+ os_path_basename "./dropzone/blank.pdf"
                      +:+ ". Starting processing...") Scenario.blank).
Proof.
  apply (textless_document_is_skipped_silently "./dropzone/blank.pdf" Scenario.blank
           [""; ""]).
  - vm_compute. reflexivity.
  - repeat constructor.
Defined.

Lemma routing_moves_one_file_witness :
  (resolve "./dropzone/invoice_q1.pdf"
     <> resolve "./organized_docs/Invoice/20240115_Invoice_Acme_Q1_Invoice.pdf" ->
   files (fs (snd (process_new_file "./dropzone/invoice_q1.pdf" Scenario.scenario_a)))
     !! resolve "./dropzone/invoice_q1.pdf" = None) /\
  (forall k,
     k <> resolve "./dropzone/invoice_q1.pdf" ->
     k <> resolve "./organized_docs/Invoice/20240115_Invoice_Acme_Q1_Invoice.pdf" ->
     files (fs (snd (process_new_file "./dropzone/invoice_q1.pdf" Scenario.scenario_a)))
       !! k = files (fs Scenario.scenario_a) !! k) /\
  (forall d,
     d ∈ dirs (fs Scenario.scenario_a) ->
     d ∈ dirs (fs (snd (process_new_file "./dropzone/invoice_q1.pdf" Scenario.scenario_a)))) /\
  last (audit_log (snd (process_new_file "./dropzone/invoice_q1.pdf" Scenario.scenario_a)))
    = Some (INFO, "SUCCESS: Routed '" +:+ os_path_basename "./dropzone/invoice_q1.pdf"
                    +:+ "' to '"
                    +:+ "./organized_docs/Invoice/20240115_Invoice_Acme_Q1_Invoice.pdf"
                    +:+ "'").
Proof.
  apply (routing_moves_one_file "./dropzone/invoice_q1.pdf" Scenario.scenario_a
           (snd (process_new_file "./dropzone/invoice_q1.pdf" Scenario.scenario_a))
           "./organized_docs/Invoice/20240115_Invoice_Acme_Q1_Invoice.pdf").
  - apply with_snd. vm_compute. reflexivity.
  - vm_compute. reflexivity.
Defined.

Lemma second_run_is_skipped_witness :
  exists w2,
    process_new_file "./dropzone/invoice_q1.pdf"
      (snd (process_new_file "./dropzone/invoice_q1.pdf" Scenario.scenario_a))
    = (Ok Skipped, w2) /\
    fs w2 = fs (snd (process_new_file "./dropzone/invoice_q1.pdf" Scenario.scenario_a)) /\
    requests w2
      = requests (snd (process_new_file "./dropzone/invoice_q1.pdf" Scenario.scenario_a)).
Proof.
  apply (second_run_is_skipped "./dropzone/invoice_q1.pdf" Scenario.scenario_a
           (snd (process_new_file "./dropzone/invoice_q1.pdf" Scenario.scenario_a))
           "./organized_docs/Invoice/20240115_Invoice_Acme_Q1_Invoice.pdf").
  - apply with_snd. vm_compute. reflexivity.
  - vm_compute. reflexivity.
  - vm_compute. discriminate.
Defined.

Lemma routed_into_directory_witness :
  exists doc,
    files (fs Scenario.directory_at_destination) !! resolve "./dropzone/invoice_q1.pdf"
      = Some (PdfDoc doc) /\
    files (fs (snd (process_new_file "./dropzone/invoice_q1.pdf"
                      Scenario.directory_at_destination)))
      !! resolve (os_path_join
                    "./organized_docs/Invoice/20240115_Invoice_Acme_Q1_Invoice.pdf"
                    (os_path_basename
                       (Py.rstrip_by (Ascii.eqb "/") "./dropzone/invoice_q1.pdf")))
      = Some (PdfDoc doc) /\
    last (audit_log (snd (process_new_file "./dropzone/invoice_q1.pdf"
                            Scenario.directory_at_destination)))
      = Some (INFO, "SUCCESS: Routed '" +:+ os_path_basename "./dropzone/invoice_q1.pdf"
                      +:+ "' to '"
                      +:+ "./organized_docs/Invoice/20240115_Invoice_Acme_Q1_Invoice.pdf"
                      +:+ "'").
Proof.
  apply (routed_into_directory "./dropzone/invoice_q1.pdf"
           Scenario.directory_at_destination
           (snd (process_new_file "./dropzone/invoice_q1.pdf"
                   Scenario.directory_at_destination))
           "./organized_docs/Invoice/20240115_Invoice_Acme_Q1_Invoice.pdf").
  - apply with_snd. vm_compute. reflexivity.
  - vm_compute. reflexivity.
Defined.

Lemma startup_makes_both_directories_witness :
  is_dir (fs (snd (ensure_directories Scenario.before_start))) (resolve WATCH_DIR) = true /\
  is_dir (fs (snd (ensure_directories Scenario.before_start))) (resolve PROCESSED_DIR)
    = true /\
  files (fs (snd (ensure_directories Scenario.before_start)))
    = files (fs Scenario.before_start) /\
  (forall d, d ∈ dirs (fs Scenario.before_start) ->
             d ∈ dirs (fs (snd (ensure_directories Scenario.before_start)))) /\
  audit_log (snd (ensure_directories Scenario.before_start))
    = audit_log Scenario.before_start /\
  ensure_directories (snd (ensure_directories Scenario.before_start))
    = (Ok tt, snd (ensure_directories Scenario.before_start)).
Proof.
  apply (startup_makes_both_directories Scenario.before_start
           (snd (ensure_directories Scenario.before_start))).
  apply with_snd. vm_compute. reflexivity.
Defined.

Lemma startup_fails_on_occupied_path_witness :
  exists e w',
    ensure_directories Scenario.occupied = (Raise e, w') /\
    (exc_class e = FileExistsError \/ exc_class e = NotADirectoryError \/
     (exc_class e = PermissionError /\ writable (fs Scenario.occupied) [] = false)) /\
    files (fs w') = files (fs Scenario.occupied).
Proof.
  apply (startup_fails_on_occupied_path Scenario.occupied (NotPdf "notes")).
  left. split; vm_compute; reflexivity.
Defined.

Lemma mkdir_raise_propagates_witness :
  exists w',
    process_new_file "./dropzone/nda.pdf" Scenario.nested_category
      = (Raise (mkExc FileNotFoundError
                  "[Errno 2] No such file or directory: './organized_docs/Legal/Contracts'"),
         w') /\
    fs w' = fs Scenario.nested_category.
Proof.
  eapply (mkdir_raise_propagates "./dropzone/nda.pdf" Scenario.nested_category
            ["Mutual non-disclosure agreement"] "Legal/Contracts" "Acme_NDA").
  - vm_compute. reflexivity.
  - discriminate.
  - vm_compute. reflexivity.
  - apply with_snd. vm_compute. reflexivity.
Defined.

(** Scenario C on a console that holds ASCII only: the memo is moved, the
    success record is written, and the run still ends in [Failed]. *)
Lemma print_failure_is_logged_as_routing_failure_witness :
  exists e w',
    process_new_file "./dropzone/memo.pdf" Scenario.ascii_console = (Ok (Failed e), w') /\
    exc_class e = UnicodeEncodeError /\
    fs w' = snd (shutil_move "./dropzone/memo.pdf"
                   "./organized_docs/Unclassified/20240115_Unclassified_Unknown_Subject.pdf"
                   (snd (Path_mkdir "./organized_docs/Unclassified" true
                           (fs Scenario.ascii_console)))) /\
    files (fs w')
      !! resolve "./organized_docs/Unclassified/20240115_Unclassified_Unknown_Subject.pdf"
      = Some (PdfDoc ["Memo to all staff"]) /\
    (resolve "./dropzone/memo.pdf"
       <> resolve "./organized_docs/Unclassified/20240115_Unclassified_Unknown_Subject.pdf" ->
     files (fs w') !! resolve "./dropzone/memo.pdf" = None) /\
    console w' = console Scenario.ascii_console /\
    exists earlier,
      audit_log w' =
        earlier ++
        [(INFO, "SUCCESS: Routed '" +:+ os_path_basename "./dropzone/memo.pdf" +:+ "' to '"
                  +:+ os_path_join (os_path_join PROCESSED_DIR "Unclassified")
                        (new_filename_of (strftime_Ymd (today Scenario.ascii_console))
                           "Unclassified" "Unknown_Subject")
                  +:+ "'");
         (ERROR, "Failed to route file " +:+ os_path_basename "./dropzone/memo.pdf" +:+ ": "
                   +:+ exc_str e)].
Proof.
  apply (print_failure_is_logged_as_routing_failure "./dropzone/memo.pdf"
           Scenario.ascii_console ["Memo to all staff"] "Unclassified" "Unknown_Subject"
           (snd (Path_mkdir "./organized_docs/Unclassified" true
                   (fs Scenario.ascii_console)))).
  - vm_compute. reflexivity.
  - discriminate.
  - vm_compute. reflexivity.
  - apply with_snd. vm_compute. reflexivity.
  - apply with_snd. vm_compute. reflexivity.
  - vm_compute. reflexivity.
Defined.

(** The audit log of that run: four records, the last two contradicting
    each other. *)
Lemma ascii_console_log :
  audit_log (snd (process_new_file "./dropzone/memo.pdf" Scenario.ascii_console)) =
    [(INFO, "New file detected: memo.pdf. Starting processing...");
     (ERROR, "AI API Error: 504 Deadline Exceeded");
     (INFO, "SUCCESS: Routed 'memo.pdf' to './organized_docs/Unclassified/20240115_Unclassified_Unknown_Subject.pdf'");
     (ERROR, "Failed to route file memo.pdf: 'ascii' codec can't encode characters in position 0-2: ordinal not in range(128)")].
Proof. vm_compute. reflexivity. Qed.
